(** * The pizza order form (frontend/components/Form.js)

    A shallow embedding of the React component [Form] and of the part of
    the Yup validation library that its schema uses.  The source file holds
    two revisions of the component; they are embedded side by side as the
    modules [First] and [Second], every definition under the name it has in
    the source.

    Conventions of the embedding:
    - a JavaScript string is the list of its UTF-16 code units;
    - a JavaScript object used as a dictionary ([errors], [touched]) is a
      [gmap] from property names to values;
    - the [useState] cells of the component are the fields of a record, the
      setters are functions on it, and a handler is the composition of the
      setter calls it makes, in source order;
    - an [await] splits a function in two: what runs before it is part of
      the step that called the function, what runs after it is a task that
      is parked and resumed by a later step; parked tasks resume in the
      order in which they were parked;
    - the setter calls of one step are applied together, the component is
      rendered again, and then the effects run whose dependencies differ
      from those of the previous render;
    - the browser delivers a submit event only while the submit control is
      enabled, and a change event of a checkbox only for a checkbox that is
      rendered; events, resumptions and the firing of the timer may
      otherwise interleave in any order;
    - time is not measured: a timer is pending from [setTimeout] until it
      fires or is cleared, and it records the delay it was set with. *)

From stdpp Require Import base list strings gmap.
From Stdlib Require Import NArith.

Local Open Scope string_scope.
Local Open Scope list_scope.
Local Open Scope nat_scope.

(** Left-to-right application, for chains of method calls. *)
Notation "x |> f" := (f x) (at level 45, left associativity, only parsing).

(** ** JavaScript strings *)

Module JS.

Definition jsstring : Type := list N.

(** The code units of an ASCII literal. *)
Fixpoint str (s : string) : jsstring :=
  match s with
  | EmptyString => []
  | String a s' => Ascii.N_of_ascii a :: str s'
  end.

(** WhiteSpace and LineTerminator code points of ECMAScript, the ones
    [String.prototype.trim] strips: TAB, LF, VT, FF, CR, SP, NBSP, the
    space separators of Unicode, LS, PS and the byte order mark. *)
Definition isWhiteSpace (c : N) : bool :=
  ((9 <=? c) && (c <=? 13))%N
  || (c =? 32)%N || (c =? 160)%N || (c =? 5760)%N
  || ((8192 <=? c) && (c <=? 8202))%N
  || (c =? 8232)%N || (c =? 8233)%N || (c =? 8239)%N
  || (c =? 8287)%N || (c =? 12288)%N || (c =? 65279)%N.

Fixpoint trimStart (s : jsstring) : jsstring :=
  match s with
  | [] => []
  | c :: s' => if isWhiteSpace c then trimStart s' else s
  end.

Definition trimEnd (s : jsstring) : jsstring := rev (trimStart (rev s)).

Definition trim (s : jsstring) : jsstring := trimEnd (trimStart s).

(** [String(n)] for a non-negative integer: its decimal digits. *)
Fixpoint digits (u : Decimal.uint) : jsstring :=
  match u with
  | Decimal.Nil => []
  | Decimal.D0 u => 48%N :: digits u
  | Decimal.D1 u => 49%N :: digits u
  | Decimal.D2 u => 50%N :: digits u
  | Decimal.D3 u => 51%N :: digits u
  | Decimal.D4 u => 52%N :: digits u
  | Decimal.D5 u => 53%N :: digits u
  | Decimal.D6 u => 54%N :: digits u
  | Decimal.D7 u => 55%N :: digits u
  | Decimal.D8 u => 56%N :: digits u
  | Decimal.D9 u => 57%N :: digits u
  end.

Definition String_of_nat (n : nat) : jsstring := digits (Nat.to_uint n).

(** [xs.includes(x)] on an array of strings. *)
Definition includes (xs : list jsstring) (x : jsstring) : bool :=
  bool_decide (x ∈ xs).

(** JavaScript truthiness of a possibly undefined string property. *)
Definition truthy (v : option jsstring) : bool :=
  match v with
  | Some (_ :: _) => true
  | _ => false
  end.

End JS.

Abbreviation jsstring := JS.jsstring.
Abbreviation str := JS.str.

Arguments JS.str : simpl never.
Arguments JS.trim : simpl never.
Arguments JS.String_of_nat : simpl never.

(** ** The fragment of Yup used by the schema

    Yup is a dependency of the repository (package.json asks for version
    1.3.2 or later of the 1.x line); what the schema uses of it is
    embedded here with the behaviour of that line.

    A schema carries its transforms, its internal tests (run first; when one
    of them fails the ordinary tests are not run) and its ordinary tests.
    Validation first casts the value with the transforms.  With
    [abortEarly: false] every failing test of the group that runs
    contributes one error, in the order of the tests.  The type, nullability
    and definedness tests that every schema carries pass on each value of the
    types modelled here (a defined string, a defined array), so they are
    left out of [internalTests]. *)

Module Yup.

Record Test (T : Type) : Type := mkTest {
  name : string;
  message : string -> jsstring;   (* the message, given the path *)
  test : T -> bool;
}.
Arguments mkTest {T} _ _ _.
Arguments name {T} _.
Arguments message {T} _ _.
Arguments test {T} _ _.

Record Schema (T : Type) : Type := mkSchema {
  transforms : list (T -> T);
  internalTests : list (Test T);
  tests : list (Test T);
}.
Arguments mkSchema {T} _ _ _.
Arguments transforms {T} _.
Arguments internalTests {T} _.
Arguments tests {T} _.

Record ValidationError : Type := mkError {
  path : string;
  errmessage : jsstring;
}.

(** A user message without placeholders. *)
Definition const (m : string) : string -> jsstring := fun _ => str m.

(** [schema.test(opts)]: an exclusive test replaces the tests of the same
    name and is appended. *)
Definition addTest {T} (t : Test T) (s : Schema T) : Schema T :=
  mkSchema (transforms s) (internalTests s)
           (filter (fun t' => name t' ≠ name t) (tests s) ++ [t]).

Definition addTransform {T} (f : T -> T) (s : Schema T) : Schema T :=
  mkSchema (transforms s ++ [f]) (internalTests s) (tests s).

Definition addInternal {T} (t : Test T) (s : Schema T) : Schema T :=
  mkSchema (transforms s)
           (filter (fun t' => name t' ≠ name t) (internalTests s) ++ [t])
           (tests s).

Definition cast {T} (s : Schema T) (v : T) : T :=
  foldl (fun v f => f v) v (transforms s).

Fixpoint runTests {T} (ts : list (Test T)) (p : string) (v : T)
  : list ValidationError :=
  match ts with
  | [] => []
  | t :: ts' =>
      if test t v then runTests ts' p v
      else mkError p (message t p) :: runTests ts' p v
  end.

Definition _validate {T} (s : Schema T) (p : string) (v : T)
  : list ValidationError :=
  let value := cast s v in
  match runTests (internalTests s) p value with
  | [] => runTests (tests s) p value
  | initialErrors => initialErrors
  end.

(** *** String schemas *)

Definition trim (s : Schema jsstring) : Schema jsstring :=
  s |> addTransform JS.trim
    |> addTest (mkTest "trim"
                  (fun p => str p ++ str " must be a trimmed string")
                  (fun v => bool_decide (v = JS.trim v))).

Definition min (n : nat) (msg : string) (s : Schema jsstring)
  : Schema jsstring :=
  s |> addTest (mkTest "min" (const msg) (fun v => n <=? length v)).

Definition max (n : nat) (msg : string) (s : Schema jsstring)
  : Schema jsstring :=
  s |> addTest (mkTest "max" (const msg) (fun v => length v <=? n)).

Definition oneOf {T} `{EqDecision T} (enums : list T) (msg : string)
    (s : Schema T) : Schema T :=
  s |> addInternal (mkTest "oneOf" (const msg)
                      (fun v => bool_decide (v ∈ enums))).

(** [required] is overridden by the string schema, which also rejects the
    empty string; on an array schema it only marks the value as not
    optional, and an empty array passes. *)
Class Required (T : Type) : Type :=
  required : string -> Schema T -> Schema T.

#[global] Instance string_required : Required jsstring :=
  fun msg s =>
    s |> addTest (mkTest "required" (const msg)
                    (fun v => negb (length v =? 0))).

#[global] Instance array_required : Required (list jsstring) :=
  fun _ s => s.

Definition array : Schema (list jsstring) := mkSchema [] [] [].

Definition string : Schema jsstring := mkSchema [] [] [].

(** *** Object schemas *)

Record Field (O : Type) : Type := mkField {
  key : String.string;
  ftype : Type;
  get : O -> ftype;
  fschema : Schema ftype;
}.
Arguments mkField {O} _ {ftype} _ _.
Arguments key {O} _.
Arguments ftype {O} _.
Arguments get {O} _ _.
Arguments fschema {O} _.

Definition object (O : Type) : Type := list (Field O).

(** The outcome of [schema.validate(data, { abortEarly: false })]: the
    promise resolves, or rejects with an error whose [inner] lists every
    failure, fields in the order of the shape. *)
Inductive Outcome : Type :=
| Resolved
| Rejected (inner : list ValidationError).

Definition validate {O} (shape : object O) (data : O) : Outcome :=
  match flat_map (fun f => _validate (fschema f) (key f) (get f data)) shape with
  | [] => Resolved
  | inner => Rejected inner
  end.

End Yup.

(** ** Data shared by the two revisions *)

(** The object held by the [formData] state cell. *)
Record FormData : Type := mkFormData {
  fullName : jsstring;
  size : jsstring;
  toppings : list jsstring;
}.

(** The elements wired to [handleChange]: [input#fullName], [select#size]. *)
Inductive InputId : Type := id_fullName | id_size.

Definition idName (id : InputId) : string :=
  match id with
  | id_fullName => "fullName"
  | id_size => "size"
  end.

(** [{ ...formData, [id]: value }] *)
Definition spread (formData : FormData) (id : InputId) (value : jsstring)
  : FormData :=
  match id with
  | id_fullName => mkFormData value (size formData) (toppings formData)
  | id_size => mkFormData (fullName formData) value (toppings formData)
  end.

(** [{ ...formData, toppings: ts }] *)
Definition spread_toppings (formData : FormData) (ts : list jsstring)
  : FormData :=
  mkFormData (fullName formData) (size formData) ts.

(** The catalogue the checkboxes are generated from, the same in both
    revisions: [topping_id] and [text]. *)
Definition toppingsData : list (jsstring * jsstring) :=
  [ (str "1", str "Pepperoni");
    (str "2", str "Green Peppers");
    (str "3", str "Pineapple");
    (str "4", str "Mushrooms");
    (str "5", str "Ham") ].

(** [err.inner.forEach((e) => { newErrors[e.path] = e.message })] *)
Definition collect (inner : list Yup.ValidationError) : gmap string jsstring :=
  foldl (fun newErrors e => <[Yup.path e := Yup.errmessage e]> newErrors)
        ∅ inner.

(** [Object.keys(o).length] *)
Definition keys_length (o : gmap string jsstring) : nat :=
  length (map fst (map_to_list o)).

(** A continuation parked at [await validateForm(data)]: that of the
    validation effect, or that of [handleSubmit].  [data] is the [formData]
    of the render whose closure the continuation belongs to. *)
Inductive Task : Type :=
| ValidationEffect (data : FormData)
| SubmitAwait (data : FormData).

(** A pending [setTimeout]: a serial number and the delay in ms. *)
Record Timer : Type := mkTimer {
  timer_id : nat;
  delay : N;
}.

(** Lines written to the console. *)
Inductive LogEntry : Type :=
| LogChange (id : string) (value : jsstring)
| LogSubmitted (data : FormData).

(** What the properties below observe of the rendered form. *)
Record View : Type := mkView {
  successBanner : option jsstring;
  failureBanner : option jsstring;
  fullNameError : option jsstring;
  sizeError : option jsstring;
  toppingsError : option jsstring;
  checkedToppings : list bool;
  submitDisabled : bool;
}.

(** [cond && <div>{text}</div>] *)
Definition when (cond : bool) (text : jsstring) : option jsstring :=
  if cond then Some text else None.

(** [errors.field && <div className="error">{errors.field}</div>] *)
Definition errorText (e : option jsstring) : option jsstring :=
  if JS.truthy e then e else None.

(** The events the environment can deliver to a mounted form. *)
Inductive Event : Type :=
| Change (id : InputId) (value : jsstring)   (* typing, choosing a size *)
| Blur                                       (* focus leaves [input#fullName] *)
| ToppingChange (topping_id : jsstring)      (* a checkbox is toggled *)
| Submit                                     (* the form is submitted *)
| Settle (random : bool)                     (* the oldest [await] resumes;
                                                [random] is the value of
                                                [Math.random() > 0.3] *)
| Timeout.                                   (* the pending timer fires *)

(** ** First revision of the component *)

Module First.

Module validationErrors.
Definition fullNameTooShort : string := "Full name must be at least 3 characters".
Definition fullNameTooLong : string := "Full name must be at most 20 characters".
Definition sizeIncorrect : string := "Size must be S or M or L".
Definition toppingsRequired : string := "At least one topping must be selected".
End validationErrors.

Definition pizzaSchema : Yup.object FormData :=
  [ Yup.mkField "fullName" fullName
      (Yup.string
         |> Yup.trim
         |> Yup.min 3 validationErrors.fullNameTooShort
         |> Yup.max 20 validationErrors.fullNameTooLong
         |> Yup.required "Full name is required");
    Yup.mkField "size" size
      (Yup.string
         |> Yup.oneOf [str "S"; str "M"; str "L"] validationErrors.sizeIncorrect
         |> Yup.required "Size is required");
    Yup.mkField "toppings" toppings
      (Yup.array |> Yup.required validationErrors.toppingsRequired) ].

(** The [useState] cells. *)
Record State : Type := mkState {
  formData : FormData;
  errors : gmap string jsstring;
  orderSuccess : bool;
  orderMessage : jsstring;
  orderFailure : bool;
  isSubmitDisabled : bool;
  isSubmitting : bool;
}.

(** A mounted component: its cells and what surrounds them.  [formDataId]
    stands for the identity of the object in [formData] (every
    [setFormData] of the source stores a fresh object), which is what the
    dependency array of the validation effect compares. *)
Record Component : Type := mkComponent {
  cells : State;
  formDataId : nat;
  pending : list Task;
  timer : option Timer;
  timers : nat;
  console : list LogEntry;
}.

Definition on_cells (f : State -> State) (c : Component) : Component :=
  mkComponent (f (cells c)) (formDataId c) (pending c) (timer c) (timers c)
              (console c).

Definition setFormData (v : FormData) (c : Component) : Component :=
  mkComponent
    (let s := cells c in
     mkState v (errors s) (orderSuccess s) (orderMessage s) (orderFailure s)
             (isSubmitDisabled s) (isSubmitting s))
    (S (formDataId c)) (pending c) (timer c) (timers c) (console c).

Definition setErrors (v : gmap string jsstring) : Component -> Component :=
  on_cells (fun s =>
    mkState (formData s) v (orderSuccess s) (orderMessage s) (orderFailure s)
            (isSubmitDisabled s) (isSubmitting s)).

Definition setOrderSuccess (v : bool) : Component -> Component :=
  on_cells (fun s =>
    mkState (formData s) (errors s) v (orderMessage s) (orderFailure s)
            (isSubmitDisabled s) (isSubmitting s)).

Definition setOrderMessage (v : jsstring) : Component -> Component :=
  on_cells (fun s =>
    mkState (formData s) (errors s) (orderSuccess s) v (orderFailure s)
            (isSubmitDisabled s) (isSubmitting s)).

Definition setOrderFailure (v : bool) : Component -> Component :=
  on_cells (fun s =>
    mkState (formData s) (errors s) (orderSuccess s) (orderMessage s) v
            (isSubmitDisabled s) (isSubmitting s)).

Definition setIsSubmitDisabled (v : bool) : Component -> Component :=
  on_cells (fun s =>
    mkState (formData s) (errors s) (orderSuccess s) (orderMessage s)
            (orderFailure s) v (isSubmitting s)).

Definition setIsSubmitting (v : bool) : Component -> Component :=
  on_cells (fun s =>
    mkState (formData s) (errors s) (orderSuccess s) (orderMessage s)
            (orderFailure s) (isSubmitDisabled s) v).

Definition console_log (l : LogEntry) (c : Component) : Component :=
  mkComponent (cells c) (formDataId c) (pending c) (timer c) (timers c)
              (console c ++ [l]).

(** Park the running function at an [await]. *)
Definition await (t : Task) (c : Component) : Component :=
  mkComponent (cells c) (formDataId c) (pending c ++ [t]) (timer c) (timers c)
              (console c).

Definition setPending (q : list Task) (c : Component) : Component :=
  mkComponent (cells c) (formDataId c) q (timer c) (timers c) (console c).

Definition setTimeout (ms : N) (c : Component) : Component :=
  mkComponent (cells c) (formDataId c) (pending c)
              (Some (mkTimer (timers c) ms)) (S (timers c)) (console c).

Definition clearTimeout (c : Component) : Component :=
  mkComponent (cells c) (formDataId c) (pending c) None (timers c) (console c).

Definition validateForm (data : FormData) : gmap string jsstring :=
  match Yup.validate pizzaSchema data with
  | Yup.Resolved => ∅
  | Yup.Rejected inner => collect inner
  end.

(** The body of the validation effect after its [await]. *)
Definition validate_resumed (formData : FormData) (c : Component) : Component :=
  let currentErrors := validateForm formData in
  c |> setErrors currentErrors
    |> setIsSubmitDisabled (0 <? keys_length currentErrors).

Definition handleChange (id : InputId) (value : jsstring) (c : Component)
  : Component :=
  let formData := formData (cells c) in
  c |> console_log (LogChange (idName id) value)
    |> setFormData (spread formData id value).

Definition handleToppingChange (toppingId : jsstring) (c : Component)
  : Component :=
  let formData := formData (cells c) in
  let toppingValue := toppingId in
  let currentToppings := toppings formData in
  if JS.includes currentToppings toppingValue then
    c |> setFormData
           (spread_toppings formData
              (filter (fun id => id ≠ toppingValue) currentToppings))
  else
    c |> setFormData
           (spread_toppings formData (currentToppings ++ [toppingValue])).

(** [handleSubmit] up to its [await]. *)
Definition handleSubmit (c : Component) : Component :=
  let formData := formData (cells c) in
  c |> setIsSubmitting true
    |> await (SubmitAwait formData).

(** [handleSubmit] from its [await] on.  [random] is the value that
    [Math.random() > 0.3] takes.  Nothing in the [try] block throws, so its
    [catch] clause is not entered; [finally] is the last call of the first
    branch. *)
Definition handleSubmit_resumed (formData : FormData) (random : bool)
    (c : Component) : Component :=
  let currentErrors := validateForm formData in
  let c := c |> setErrors currentErrors in
  if keys_length currentErrors =? 0 then
    let c := c |> console_log (LogSubmitted formData) in
    let success := random in
    let c :=
      if success then
        let sizeText :=
          if bool_decide (size formData = str "S") then str "small"
          else if bool_decide (size formData = str "M") then str "medium"
          else str "large" in
        let toppingCount := length (toppings formData) in
        let toppingMessage :=
          if toppingCount =? 0 then str "with no toppings"
          else if toppingCount =? 1 then str "with 1 topping"
          else str "with " ++ JS.String_of_nat toppingCount ++ str " toppings" in
        let message :=
          str "Thank you for your order, " ++ fullName formData
            ++ str "! Your " ++ sizeText ++ str " pizza " ++ toppingMessage in
        c |> setOrderMessage (JS.trim message)
          |> setOrderSuccess true
          |> setOrderFailure false
          |> setFormData (mkFormData [] [] [])
      else
        c |> setOrderSuccess false
          |> setOrderFailure true
          |> setOrderMessage [] in
    c |> setIsSubmitting false
  else
    c |> setIsSubmitting false.

(** The callback of the banner timer. *)
Definition timer_fired (c : Component) : Component :=
  c |> setOrderSuccess false
    |> setOrderFailure false
    |> setOrderMessage [].

(** [useEffect(..., [formData])]: runs when the object in [formData] is not
    the one of the previous render, and parks at its [await]. *)
Definition useEffect_validate (before after : Component) : Component :=
  if formDataId before =? formDataId after then after
  else after |> await (ValidationEffect (formData (cells after))).

(** [useEffect(..., [orderSuccess, orderFailure])]: runs when one of the two
    differs from the previous render; the cleanup of the previous run clears
    its timer, then a new timer is set if a banner is shown. *)
Definition useEffect_banner (before after : Component) : Component :=
  if bool_decide (orderSuccess (cells before) = orderSuccess (cells after)
                  ∧ orderFailure (cells before) = orderFailure (cells after))
  then after
  else
    let after := clearTimeout after in
    if orderSuccess (cells after) || orderFailure (cells after)
    then setTimeout 3000%N after
    else after.

(** A re-render followed by the effects whose dependencies changed. *)
Definition commit (before after : Component) : Component :=
  after |> useEffect_validate before |> useEffect_banner before.

Definition render (s : State) : View :=
  mkView
    (when (orderSuccess s) (orderMessage s))
    (when (orderFailure s) (str "Something went wrong"))
    (errorText (errors s !! "fullName"))
    (errorText (errors s !! "size"))
    (errorText (errors s !! "toppings"))
    (map (fun topping => JS.includes (toppings (formData s)) (fst topping))
         toppingsData)
    (isSubmitDisabled s || isSubmitting s).

(** The component after its first render: both effects have run, the
    validation effect is parked, no banner is shown. *)
Definition mount : Component :=
  mkComponent
    (mkState (mkFormData [] [] []) ∅ false [] false true false)
    0 [ValidationEffect (mkFormData [] [] [])] None 0 [].

(** One event.  [None]: the event cannot happen in [c] (a disabled submit
    control, a checkbox that is not rendered, nothing parked, no timer). *)
Definition step (e : Event) (c : Component) : option Component :=
  match e with
  | Change id value => Some (commit c (handleChange id value c))
  | Blur => Some c
  | ToppingChange topping_id =>
      if bool_decide (topping_id ∈ map fst toppingsData)
      then Some (commit c (handleToppingChange topping_id c))
      else None
  | Submit =>
      if submitDisabled (render (cells c)) then None
      else Some (commit c (handleSubmit c))
  | Settle random =>
      match pending c with
      | [] => None
      | task :: rest =>
          let c := setPending rest c in
          Some (commit c
                  match task with
                  | ValidationEffect data => validate_resumed data c
                  | SubmitAwait data => handleSubmit_resumed data random c
                  end)
      end
  | Timeout =>
      match timer c with
      | None => None
      | Some _ =>
          let c := clearTimeout c in
          Some (commit c (timer_fired c))
      end
  end.

Fixpoint run (es : list Event) (c : Component) : option Component :=
  match es with
  | [] => Some c
  | e :: es' =>
      match step e c with
      | Some c' => run es' c'
      | None => None
      end
  end.

Inductive reachable : Component -> Prop :=
| reachable_mount : reachable mount
| reachable_step e c c' :
    reachable c -> step e c = Some c' -> reachable c'.

End First.

(** ** Second revision of the component *)

Module Second.

Module validationErrors.
Definition fullNameTooShort : string := "Full name must be at least 3 characters".
Definition fullNameTooLong : string := "Full name must be at most 20 characters".
Definition sizeIncorrect : string := "size must be S or M or L".
Definition toppingsRequired : string := "At least one topping must be selected".
End validationErrors.

Definition pizzaSchema : Yup.object FormData :=
  [ Yup.mkField "fullName" fullName
      (Yup.string
         |> Yup.trim
         |> Yup.min 3 validationErrors.fullNameTooShort
         |> Yup.max 20 validationErrors.fullNameTooLong
         |> Yup.required "Full name is required");
    Yup.mkField "size" size
      (Yup.string
         |> Yup.oneOf [str "S"; str "M"; str "L"] validationErrors.sizeIncorrect
         |> Yup.required "size is required");
    Yup.mkField "toppings" toppings Yup.array ].

(** The [useState] cells. *)
Record State : Type := mkState {
  formData : FormData;
  errors : gmap string jsstring;
  orderSuccess : bool;
  orderMessage : jsstring;
  orderFailure : bool;
  isSubmitDisabled : bool;
  isSubmitting : bool;
  touched : gmap string bool;
  hasAttemptedSubmit : bool;
}.

(** A mounted component, as in the first revision. *)
Record Component : Type := mkComponent {
  cells : State;
  formDataId : nat;
  pending : list Task;
  timer : option Timer;
  timers : nat;
  console : list LogEntry;
}.

Definition on_cells (f : State -> State) (c : Component) : Component :=
  mkComponent (f (cells c)) (formDataId c) (pending c) (timer c) (timers c)
              (console c).

Definition setFormData (v : FormData) (c : Component) : Component :=
  mkComponent
    (let s := cells c in
     mkState v (errors s) (orderSuccess s) (orderMessage s) (orderFailure s)
             (isSubmitDisabled s) (isSubmitting s) (touched s)
             (hasAttemptedSubmit s))
    (S (formDataId c)) (pending c) (timer c) (timers c) (console c).

Definition setErrors (v : gmap string jsstring) : Component -> Component :=
  on_cells (fun s =>
    mkState (formData s) v (orderSuccess s) (orderMessage s) (orderFailure s)
            (isSubmitDisabled s) (isSubmitting s) (touched s)
            (hasAttemptedSubmit s)).

Definition setOrderSuccess (v : bool) : Component -> Component :=
  on_cells (fun s =>
    mkState (formData s) (errors s) v (orderMessage s) (orderFailure s)
            (isSubmitDisabled s) (isSubmitting s) (touched s)
            (hasAttemptedSubmit s)).

Definition setOrderMessage (v : jsstring) : Component -> Component :=
  on_cells (fun s =>
    mkState (formData s) (errors s) (orderSuccess s) v (orderFailure s)
            (isSubmitDisabled s) (isSubmitting s) (touched s)
            (hasAttemptedSubmit s)).

Definition setOrderFailure (v : bool) : Component -> Component :=
  on_cells (fun s =>
    mkState (formData s) (errors s) (orderSuccess s) (orderMessage s) v
            (isSubmitDisabled s) (isSubmitting s) (touched s)
            (hasAttemptedSubmit s)).

Definition setIsSubmitDisabled (v : bool) : Component -> Component :=
  on_cells (fun s =>
    mkState (formData s) (errors s) (orderSuccess s) (orderMessage s)
            (orderFailure s) v (isSubmitting s) (touched s)
            (hasAttemptedSubmit s)).

Definition setIsSubmitting (v : bool) : Component -> Component :=
  on_cells (fun s =>
    mkState (formData s) (errors s) (orderSuccess s) (orderMessage s)
            (orderFailure s) (isSubmitDisabled s) v (touched s)
            (hasAttemptedSubmit s)).

(** [setTouched] is always called with an updater function. *)
Definition setTouched (f : gmap string bool -> gmap string bool)
  : Component -> Component :=
  on_cells (fun s =>
    mkState (formData s) (errors s) (orderSuccess s) (orderMessage s)
            (orderFailure s) (isSubmitDisabled s) (isSubmitting s)
            (f (touched s)) (hasAttemptedSubmit s)).

Definition setHasAttemptedSubmit (v : bool) : Component -> Component :=
  on_cells (fun s =>
    mkState (formData s) (errors s) (orderSuccess s) (orderMessage s)
            (orderFailure s) (isSubmitDisabled s) (isSubmitting s)
            (touched s) v).

Definition console_log (l : LogEntry) (c : Component) : Component :=
  mkComponent (cells c) (formDataId c) (pending c) (timer c) (timers c)
              (console c ++ [l]).

(** Park the running function at an [await]. *)
Definition await (t : Task) (c : Component) : Component :=
  mkComponent (cells c) (formDataId c) (pending c ++ [t]) (timer c) (timers c)
              (console c).

Definition setPending (q : list Task) (c : Component) : Component :=
  mkComponent (cells c) (formDataId c) q (timer c) (timers c) (console c).

Definition setTimeout (ms : N) (c : Component) : Component :=
  mkComponent (cells c) (formDataId c) (pending c)
              (Some (mkTimer (timers c) ms)) (S (timers c)) (console c).

Definition clearTimeout (c : Component) : Component :=
  mkComponent (cells c) (formDataId c) (pending c) None (timers c) (console c).

Definition validateForm (data : FormData) : gmap string jsstring :=
  match Yup.validate pizzaSchema data with
  | Yup.Resolved => ∅
  | Yup.Rejected inner => collect inner
  end.

(** The body of the validation effect after its [await]. *)
Definition validate_resumed (formData : FormData) (c : Component) : Component :=
  let currentErrors := validateForm formData in
  c |> setErrors currentErrors
    |> setIsSubmitDisabled (0 <? keys_length currentErrors).

Definition handleChange (id : InputId) (value : jsstring) (c : Component)
  : Component :=
  let formData := formData (cells c) in
  c |> console_log (LogChange (idName id) value)
    |> setFormData (spread formData id value)
    |> setTouched (fun prevTouched => <[idName id := true]> prevTouched).

Definition handleBlur (id : InputId) (c : Component) : Component :=
  c |> setTouched (fun prevTouched => <[idName id := true]> prevTouched).

Definition handleToppingChange (toppingId : jsstring) (c : Component)
  : Component :=
  let formData := formData (cells c) in
  let toppingValue := toppingId in
  let currentToppings := toppings formData in
  let c := c |> setTouched (fun prevTouched => <["toppings" := true]> prevTouched) in
  if JS.includes currentToppings toppingValue then
    c |> setFormData
           (spread_toppings formData
              (filter (fun id => id ≠ toppingValue) currentToppings))
  else
    c |> setFormData
           (spread_toppings formData (currentToppings ++ [toppingValue])).

(** [handleSubmit] up to its [await]. *)
Definition handleSubmit (c : Component) : Component :=
  let formData := formData (cells c) in
  c |> setIsSubmitting true
    |> setHasAttemptedSubmit true
    |> await (SubmitAwait formData).

(** [handleSubmit] from its [await] on.  Nothing in the [try] block throws,
    so its [catch] clause is not entered; [finally] is the last call of
    the first branch. *)
Definition handleSubmit_resumed (formData : FormData) (c : Component)
  : Component :=
  let currentErrors := validateForm formData in
  let c := c |> setErrors currentErrors in
  if keys_length currentErrors =? 0 then
    let c := c |> console_log (LogSubmitted formData) in
    let success := true in
    let c :=
      if success then
        let sizeText :=
          if bool_decide (size formData = str "S") then str "small"
          else if bool_decide (size formData = str "M") then str "medium"
          else str "large" in
        let toppingCount := length (toppings formData) in
        let toppingMessage :=
          if toppingCount =? 0 then str "with no toppings"
          else if toppingCount =? 1 then str "with 1 topping"
          else str "with " ++ JS.String_of_nat toppingCount ++ str " toppings" in
        let message :=
          str "Thank you for your order, " ++ fullName formData
            ++ str "! Your " ++ sizeText ++ str " pizza " ++ toppingMessage
            ++ str " is on the way." in
        c |> setOrderMessage (JS.trim message)
          |> setOrderSuccess true
          |> setOrderFailure false
          |> setFormData (mkFormData [] [] [])
          |> setErrors ∅
          |> setTouched (fun _ => ∅)
          |> setHasAttemptedSubmit false
      else
        c |> setOrderSuccess false
          |> setOrderFailure true
          |> setOrderMessage [] in
    c |> setIsSubmitting false
  else
    c |> setIsSubmitting false.

(** The callback of the banner timer. *)
Definition timer_fired (c : Component) : Component :=
  c |> setOrderSuccess false
    |> setOrderFailure false
    |> setOrderMessage [].

(** [useEffect(..., [formData])] *)
Definition useEffect_validate (before after : Component) : Component :=
  if formDataId before =? formDataId after then after
  else after |> await (ValidationEffect (formData (cells after))).

(** [useEffect(..., [orderSuccess, orderFailure])] *)
Definition useEffect_banner (before after : Component) : Component :=
  if bool_decide (orderSuccess (cells before) = orderSuccess (cells after)
                  ∧ orderFailure (cells before) = orderFailure (cells after))
  then after
  else
    let after := clearTimeout after in
    if orderSuccess (cells after) || orderFailure (cells after)
    then setTimeout 30000%N after
    else after.

(** A re-render followed by the effects whose dependencies changed. *)
Definition commit (before after : Component) : Component :=
  after |> useEffect_validate before |> useEffect_banner before.

(** [touched.key], a flag that is [true] or missing. *)
Definition flag (touched : gmap string bool) (key : string) : bool :=
  default false (touched !! key).

(** [(hasAttemptedSubmit || touched.key) && errors.field && <div ...>] *)
Definition gated (cond : bool) (text : option jsstring) : option jsstring :=
  if cond then text else None.

Definition render (s : State) : View :=
  mkView
    (when (orderSuccess s) (orderMessage s))
    (when (orderFailure s) (str "Something went wrong"))
    (gated (hasAttemptedSubmit s || flag (touched s) "fullName")
           (errorText (errors s !! "fullName")))
    (gated (hasAttemptedSubmit s || flag (touched s) "size")
           (errorText (errors s !! "size")))
    (gated (hasAttemptedSubmit s || flag (touched s) "topping")
           (errorText (errors s !! "toppings")))
    (map (fun topping => JS.includes (toppings (formData s)) (fst topping))
         toppingsData)
    (isSubmitDisabled s || isSubmitting s).

(** The component after its first render. *)
Definition mount : Component :=
  mkComponent
    (mkState (mkFormData [] [] []) ∅ false [] false true false ∅ false)
    0 [ValidationEffect (mkFormData [] [] [])] None 0 [].

(** One event.  The outcome of a submission is the constant [true] in this
    revision, so [Settle] does not look at its argument. *)
Definition step (e : Event) (c : Component) : option Component :=
  match e with
  | Change id value => Some (commit c (handleChange id value c))
  | Blur => Some (commit c (handleBlur id_fullName c))
  | ToppingChange topping_id =>
      if bool_decide (topping_id ∈ map fst toppingsData)
      then Some (commit c (handleToppingChange topping_id c))
      else None
  | Submit =>
      if submitDisabled (render (cells c)) then None
      else Some (commit c (handleSubmit c))
  | Settle _ =>
      match pending c with
      | [] => None
      | task :: rest =>
          let c := setPending rest c in
          Some (commit c
                  match task with
                  | ValidationEffect data => validate_resumed data c
                  | SubmitAwait data => handleSubmit_resumed data c
                  end)
      end
  | Timeout =>
      match timer c with
      | None => None
      | Some _ =>
          let c := clearTimeout c in
          Some (commit c (timer_fired c))
      end
  end.

Fixpoint run (es : list Event) (c : Component) : option Component :=
  match es with
  | [] => Some c
  | e :: es' =>
      match step e c with
      | Some c' => run es' c'
      | None => None
      end
  end.

Inductive reachable : Component -> Prop :=
| reachable_mount : reachable mount
| reachable_step e c c' :
    reachable c -> step e c = Some c' -> reachable c'.

End Second.

(** * Vocabulary of the properties *)

(** The events that enter the full name "Al" and the size "M" into a
    freshly mounted form, every [await] resuming as soon as it can. *)
Definition enter_Al_M : list Event :=
  [ Settle true;
    Change id_fullName (str "Al"); Settle true;
    Change id_size (str "M"); Settle true ].

(** What [handleToppingChange] stores as the new [toppings], the same
    expression in both revisions. *)
Definition toggled (id : jsstring) (l : list jsstring) : list jsstring :=
  if JS.includes l id then filter (fun x => x ≠ id) l else l ++ [id].

(** The wording of the topping count in the confirmation message. *)
Definition toppings_phrase (n : nat) : jsstring :=
  match n with
  | 0 => str "no toppings"
  | 1 => str "1 topping"
  | _ => JS.String_of_nat n ++ str " toppings"
  end.

(** The word the confirmation message uses for each size. *)
Definition size_words : list (jsstring * jsstring) :=
  [ (str "S", str "small"); (str "M", str "medium"); (str "L", str "large") ].

(** [handleSubmit] from its first statement to its last when nothing else
    runs in between: the part before the [await], then the continuation
    it parked. *)
Definition first_handleSubmit_whole (random : bool) (c : First.Component)
  : First.Component :=
  First.handleSubmit_resumed (First.formData (First.cells c)) random
    (First.setPending (First.pending c) (First.handleSubmit c)).

Definition second_handleSubmit_whole (c : Second.Component)
  : Second.Component :=
  Second.handleSubmit_resumed (Second.formData (Second.cells c))
    (Second.setPending (Second.pending c) (Second.handleSubmit c)).

(** Whether a form fails validation, the way the validation effect
    computes the value it stores in [isSubmitDisabled]. *)
Definition invalid (V : FormData -> gmap string jsstring) (d : FormData) : bool :=
  0 <? keys_length (V d).

Arguments invalid : simpl never.

(** The parked continuations agree with the disabled flag.  Walking the
    queue from its head with the current flag [dis]: a validation effect
    will overwrite the flag; a parked [handleSubmit] finds the flag that
    validating its own form gives; and at the end the flag is the one of
    the form now in [formData]. *)
Fixpoint sound (V : FormData -> gmap string jsstring) (dis : bool)
    (q : list Task) (cur : FormData) : Prop :=
  match q with
  | [] => dis = invalid V cur
  | ValidationEffect d :: q' => sound V (invalid V d) q' cur
  | SubmitAwait d :: q' => dis = invalid V d ∧ sound V dis q' cur
  end.

(** The number of parked [handleSubmit] continuations. *)
Fixpoint in_flight (q : list Task) : nat :=
  match q with
  | [] => 0
  | ValidationEffect _ :: q' => in_flight q'
  | SubmitAwait _ :: q' => S (in_flight q')
  end.

Definition task_data (t : Task) : FormData :=
  match t with
  | ValidationEffect d | SubmitAwait d => d
  end.

(** The last parked continuation, if there is one, belongs to the form now
    in [formData]; if nothing is parked, the error mapping is the one of
    that form. *)
Definition settled (V : FormData -> gmap string jsstring)
    (errors : gmap string jsstring) (q : list Task) (cur : FormData) : Prop :=
  match last q with
  | None => errors = V cur
  | Some t => task_data t = cur
  end.

Definition first_inv (c : First.Component) : Prop :=
  let s := First.cells c in
  (First.errors s ≠ ∅ ->
   First.isSubmitDisabled s = true ∨ First.isSubmitting s = true)
  ∧ sound First.validateForm (First.isSubmitDisabled s) (First.pending c)
          (First.formData s)
  ∧ in_flight (First.pending c) = (if First.isSubmitting s then 1 else 0)
  ∧ settled First.validateForm (First.errors s) (First.pending c)
            (First.formData s).

Definition second_inv (c : Second.Component) : Prop :=
  let s := Second.cells c in
  (Second.errors s ≠ ∅ ->
   Second.isSubmitDisabled s = true ∨ Second.isSubmitting s = true)
  ∧ sound Second.validateForm (Second.isSubmitDisabled s) (Second.pending c)
          (Second.formData s)
  ∧ in_flight (Second.pending c) = (if Second.isSubmitting s then 1 else 0)
  ∧ settled Second.validateForm (Second.errors s) (Second.pending c)
            (Second.formData s)
  ∧ Second.touched s !! "topping" = None.

(** "Alice" and size "S" are entered and the form is submitted; every
    [await] resumes as soon as it can, and the submission is parked. *)
Definition submit_Alice : list Event :=
  [ Settle true;
    Change id_fullName (str "Alice"); Settle true;
    Change id_size (str "S"); Settle true;
    Submit ].

(** The first order: the submission of Alice is accepted, and the empty
    form it leaves is validated. *)
Definition order_Alice : list Event :=
  submit_Alice ++ [ Settle true; Settle true ].

(** A second order right after the first: "Bob", size "M". *)
Definition order_Bob : list Event :=
  [ Change id_fullName (str "Bob"); Settle true;
    Change id_size (str "M"); Settle true;
    Submit; Settle true; Settle true ].

(** A banner is shown exactly when a timer with the fixed delay [ms] is
    pending. *)
Definition timer_tracks (ms : N) (banner : bool) (t : option Timer) : Prop :=
  if banner then ∃ k, t = Some (mkTimer k ms) else t = None.

(** The entry of [fullName] in the error mapping that a trimmed length
    calls for. *)
Definition fullName_entry (n : nat) : option jsstring :=
  if n =? 0 then Some (str "Full name is required")
  else if n <? 3 then Some (str "Full name must be at least 3 characters")
  else if 20 <? n then Some (str "Full name must be at most 20 characters")
  else None.

(** The ids of the catalogue, in its order. *)
Definition topping_ids : list jsstring := map fst toppingsData.

(** The number of ticked checkboxes of a view. *)
Definition ticked (v : View) : nat :=
  length (filter (fun b => b = true) (checkedToppings v)).

(** The banner cells agree with each other: not both banners at once, no
    message without the success banner, and with it a message that opens
    with the thanks. *)
Definition banner_consistent (success failure : bool) (message : jsstring)
  : Prop :=
  (success = true -> failure = false)
  ∧ (success = false -> message = [])
  ∧ (success = true ->
     ∃ rest, message = str "Thank you for your order, " ++ rest).

(** "Alice" and size "S" are entered and validated; nothing is parked. *)
Definition enter_Alice_S : list Event :=
  [ Settle true;
    Change id_fullName (str "Alice"); Settle true;
    Change id_size (str "S"); Settle true ].

(** The state a list of events leads to from the mount of the first
    revision (the mount itself if the events cannot happen). *)
Definition first_after (es : list Event) : First.Component :=
  default First.mount (First.run es First.mount).

Definition second_after (es : list Event) : Second.Component :=
  default Second.mount (Second.run es Second.mount).

(** The events by which the user edits the form. *)
Definition is_edit (e : Event) : bool :=
  match e with
  | Change _ _ | Blur | ToppingChange _ => true
  | _ => false
  end.

(** The fields of the form, by the names of their entries in [formData]
    and [errors]. *)
Definition form_fields : list string := ["fullName"; "size"; "toppings"].

(** The error text a view shows for a field. *)
Definition error_text_of (f : string) (v : View) : option jsstring :=
  if bool_decide (f = "fullName") then fullNameError v
  else if bool_decide (f = "size") then sizeError v
  else if bool_decide (f = "toppings") then toppingsError v
  else None.

(** An event by which the user touches a field: a change of the name or of
    the size, the focus leaving the name input, a topping toggled. *)
Definition touches (f : string) (e : Event) : bool :=
  match e with
  | Change id _ => bool_decide (idName id = f)
  | Blur => bool_decide (f = "fullName")
  | ToppingChange _ => bool_decide (f = "toppings")
  | _ => false
  end.

(** An event by which the user attempts a submit. *)
Definition attempts (e : Event) : bool :=
  match e with
  | Submit => true
  | _ => false
  end.

(** * Properties *)

(** ** Trimming *)

Lemma trimStart_idem s : JS.trimStart (JS.trimStart s) = JS.trimStart s.
Proof.
  induction s as [|c s IH]; simpl; [done|].
  destruct (JS.isWhiteSpace c) eqn:Hc; [done|].
  simpl. by rewrite Hc.
Qed.

Lemma trimStart_snoc s c :
  JS.isWhiteSpace c = false ->
  JS.trimStart (s ++ [c]) = JS.trimStart s ++ [c].
Proof.
  intros Hc. induction s as [|d s IH]; simpl.
  - by rewrite Hc.
  - by destruct (JS.isWhiteSpace d).
Qed.

Lemma trimEnd_cons c s :
  JS.isWhiteSpace c = false -> JS.trimEnd (c :: s) = c :: JS.trimEnd s.
Proof.
  intros Hc. unfold JS.trimEnd. simpl.
  rewrite trimStart_snoc by done. by rewrite rev_app_distr.
Qed.

Lemma trimEnd_idem s : JS.trimEnd (JS.trimEnd s) = JS.trimEnd s.
Proof.
  unfold JS.trimEnd. by rewrite rev_involutive, trimStart_idem.
Qed.

(** A string that starts with a character that is not white space is left
    alone by [trimStart]. *)
Lemma trimStart_head c s :
  JS.isWhiteSpace c = false -> JS.trimStart (c :: s) = c :: s.
Proof. intros Hc. simpl. by rewrite Hc. Qed.

Lemma trimStart_cases s :
  JS.trimStart s = []
  ∨ ∃ c t, JS.trimStart s = c :: t ∧ JS.isWhiteSpace c = false.
Proof.
  induction s as [|c s IH]; simpl; [by left|].
  destruct (JS.isWhiteSpace c) eqn:Hc; [done|].
  right. by exists c, s.
Qed.

Lemma trim_idem s : JS.trim (JS.trim s) = JS.trim s.
Proof.
  unfold JS.trim.
  destruct (trimStart_cases s) as [->|(c & t & -> & Hc)]; [done|].
  rewrite trimEnd_cons by done.
  rewrite trimStart_head by done.
  rewrite <- trimEnd_cons by done.
  apply trimEnd_idem.
Qed.

(** ** Validation *)

Lemma runTests_pass {T} (ts : list (Yup.Test T)) p v :
  forallb (fun t => Yup.test t v) ts = true -> Yup.runTests ts p v = [].
Proof.
  induction ts as [|t ts IH]; simpl; [done|].
  intros [Ht Hts]%andb_true_iff. rewrite Ht. auto.
Qed.

Lemma _validate_pass {T} (s : Yup.Schema T) p v :
  forallb (fun t => Yup.test t (Yup.cast s v)) (Yup.internalTests s) = true ->
  forallb (fun t => Yup.test t (Yup.cast s v)) (Yup.tests s) = true ->
  Yup._validate s p v = [].
Proof.
  intros Hi Ht. unfold Yup._validate. cbv zeta.
  rewrite (runTests_pass _ _ _ Hi). by apply runTests_pass.
Qed.

(** The four tests of the [fullName] schema, in their order: the trim test
    (which the trim transform makes pass), [min], [max], [required]. *)
Lemma fullName_tests_pass n :
  3 <= length (JS.trim n) <= 20 ->
  bool_decide (JS.trim n = JS.trim (JS.trim n))
  && ((3 <=? length (JS.trim n))
  && ((length (JS.trim n) <=? 20)
  && (negb (length (JS.trim n) =? 0) && true))) = true.
Proof.
  intros [Hlo Hhi].
  rewrite bool_decide_eq_true_2 by (by rewrite trim_idem).
  rewrite (proj2 (Nat.leb_le _ _) Hlo), (proj2 (Nat.leb_le _ _) Hhi).
  destruct (length (JS.trim n)); [lia|done].
Qed.

Lemma first_validateForm_valid d :
  3 <= length (JS.trim (fullName d)) <= 20 ->
  size d ∈ [str "S"; str "M"; str "L"] ->
  First.validateForm d = ∅.
Proof.
  destruct d as [n z t]; cbn [fullName size]. intros Hn Hz.
  unfold First.validateForm, Yup.validate, First.pizzaSchema.
  cbn [flat_map Yup.fschema Yup.key Yup.get fullName size toppings].
  rewrite (_validate_pass _ _ n);
    [|reflexivity|exact (fullName_tests_pass n Hn)].
  rewrite !elem_of_cons, elem_of_nil in Hz.
  by destruct Hz as [->|[->|[->|[]]]].
Qed.

Lemma second_validateForm_valid d :
  3 <= length (JS.trim (fullName d)) <= 20 ->
  size d ∈ [str "S"; str "M"; str "L"] ->
  Second.validateForm d = ∅.
Proof.
  destruct d as [n z t]; cbn [fullName size]. intros Hn Hz.
  unfold Second.validateForm, Yup.validate, Second.pizzaSchema.
  cbn [flat_map Yup.fschema Yup.key Yup.get fullName size toppings].
  rewrite (_validate_pass _ _ n);
    [|reflexivity|exact (fullName_tests_pass n Hn)].
  rewrite !elem_of_cons, elem_of_nil in Hz.
  by destruct Hz as [->|[->|[->|[]]]].
Qed.

(** C1.  A form whose trimmed full name has between 3 and 20 characters and
    whose size is "S", "M" or "L" validates without errors, in both
    revisions.  That [toppings] is an array is the type of the field. *)
Theorem C1_valid_form_has_no_errors (d : FormData) :
  3 <= length (JS.trim (fullName d)) <= 20 ->
  size d ∈ [str "S"; str "M"; str "L"] ->
  First.validateForm d = ∅ ∧ Second.validateForm d = ∅.
Proof.
  intros Hn Hz. split.
  - by apply first_validateForm_valid.
  - by apply second_validateForm_valid.
Qed.

Lemma C1_witness :
  First.validateForm (mkFormData (str "  Alice ") (str "S") [str "1"; str "3"]) = ∅
  ∧ Second.validateForm (mkFormData (str "  Alice ") (str "S") [str "1"; str "3"]) = ∅.
Proof.
  apply (C1_valid_form_has_no_errors
           (mkFormData (str "  Alice ") (str "S") [str "1"; str "3"])).
  - vm_compute. lia.
  - apply list_elem_of_here.
Defined.

(** C6.  For fullName "Al", size "M" and no toppings the error mapping is
    exactly the entry of [fullName] with the too-short message, and once
    these values are entered the submit control is disabled. *)
Theorem C6_scenario_Al_M :
  let d := mkFormData (str "Al") (str "M") [] in
  let e : gmap string jsstring :=
    {[ "fullName" := str "Full name must be at least 3 characters" ]} in
  (First.validateForm d = e
   ∧ ∃ c, First.run enter_Al_M First.mount = Some c
       ∧ First.formData (First.cells c) = d
       ∧ First.errors (First.cells c) = e
       ∧ First.pending c = []
       ∧ submitDisabled (First.render (First.cells c)) = true)
  ∧
  (Second.validateForm d = e
   ∧ ∃ c, Second.run enter_Al_M Second.mount = Some c
       ∧ Second.formData (Second.cells c) = d
       ∧ Second.errors (Second.cells c) = e
       ∧ Second.pending c = []
       ∧ submitDisabled (Second.render (Second.cells c)) = true).
Proof.
  cbv zeta. split; (split; [by vm_compute|]).
  - eexists. split; [by vm_compute|]. by vm_compute.
  - eexists. split; [by vm_compute|]. by vm_compute.
Qed.

(** ** Toggling a topping *)

Section Toggle.

Variable id : jsstring.

Lemma toggled_elem_of l x :
  x ∈ toggled id l ↔ (x = id ∧ id ∉ l) ∨ (x ≠ id ∧ x ∈ l).
Proof.
  unfold toggled, JS.includes. case_bool_decide as Hin.
  - rewrite list_elem_of_filter. tauto.
  - rewrite elem_of_app, list_elem_of_singleton.
    destruct (decide (x = id)) as [->|]; intuition congruence.
Qed.

Lemma toggled_NoDup l : NoDup l -> NoDup (toggled id l).
Proof.
  intros Hl. unfold toggled, JS.includes. case_bool_decide as Hin.
  - by apply NoDup_filter.
  - apply NoDup_app. split_and!; [done| |apply NoDup_singleton].
    intros x Hx ->%list_elem_of_singleton. done.
Qed.

Lemma toggled_toggles l : id ∈ toggled id l ↔ id ∉ l.
Proof. rewrite toggled_elem_of. intuition congruence. Qed.

Lemma toggled_twice l x : x ∈ toggled id (toggled id l) ↔ x ∈ l.
Proof.
  rewrite toggled_elem_of, toggled_toggles, (toggled_elem_of l x).
  destruct (decide (x = id)) as [->|]; [|intuition congruence].
  destruct (decide (id ∈ l)); intuition congruence.
Qed.

Lemma first_handleToppingChange_toppings c :
  toppings (First.formData (First.cells (First.handleToppingChange id c)))
  = toggled id (toppings (First.formData (First.cells c))).
Proof.
  unfold First.handleToppingChange, toggled.
  by destruct (JS.includes _ _).
Qed.

Lemma second_handleToppingChange_toppings c :
  toppings (Second.formData (Second.cells (Second.handleToppingChange id c)))
  = toggled id (toppings (Second.formData (Second.cells c))).
Proof.
  unfold Second.handleToppingChange, toggled. cbv zeta.
  by destruct (JS.includes _ _).
Qed.

(** C10.  On a list of toppings without duplicates [handleToppingChange]
    toggles the membership of the id: the id is in the new list exactly when
    it was not in the old one, the new list has no duplicates, and toggling
    the same id twice gives back a list with the elements of the original. *)
Theorem C10_handleToppingChange_toggles (l : list jsstring) :
  NoDup l ->
  (∀ c : First.Component,
     let ts c := toppings (First.formData (First.cells c)) in
     let c1 := First.handleToppingChange id c in
     let c2 := First.handleToppingChange id c1 in
     ts c = l ->
     (id ∈ ts c1 ↔ id ∉ l) ∧ NoDup (ts c1) ∧ (∀ x, x ∈ ts c2 ↔ x ∈ l))
  ∧
  (∀ c : Second.Component,
     let ts c := toppings (Second.formData (Second.cells c)) in
     let c1 := Second.handleToppingChange id c in
     let c2 := Second.handleToppingChange id c1 in
     ts c = l ->
     (id ∈ ts c1 ↔ id ∉ l) ∧ NoDup (ts c1) ∧ (∀ x, x ∈ ts c2 ↔ x ∈ l)).
Proof.
  intros Hnd. split; intros c ts c1 c2 Hl; subst ts c1 c2; cbv beta in *.
  - rewrite !first_handleToppingChange_toppings, Hl.
    split_and!; [apply toggled_toggles|by apply toggled_NoDup|].
    intros x. apply toggled_twice.
  - rewrite !second_handleToppingChange_toppings, Hl.
    split_and!; [apply toggled_toggles|by apply toggled_NoDup|].
    intros x. apply toggled_twice.
Qed.

End Toggle.

Lemma C10_witness :
  let c := First.setFormData
             (mkFormData (str "Alice") (str "S") [str "1"; str "3"])
             First.mount in
  let ts c := toppings (First.formData (First.cells c)) in
  let c1 := First.handleToppingChange (str "3") c in
  let c2 := First.handleToppingChange (str "3") c1 in
  NoDup [str "1"; str "3"]
  ∧ (str "3" ∈ ts c1 ↔ str "3" ∉ [str "1"; str "3"]) ∧ NoDup (ts c1)
  ∧ (∀ x, x ∈ ts c2 ↔ x ∈ [str "1"; str "3"]).
Proof.
  cbv zeta.
  assert (Hnd : NoDup [str "1"; str "3"])
    by (apply (bool_decide_unpack _); vm_compute; exact I).
  split; [exact Hnd|].
  apply (proj1 (C10_handleToppingChange_toggles (str "3") [str "1"; str "3"] Hnd)
           (First.setFormData
              (mkFormData (str "Alice") (str "S") [str "1"; str "3"])
              First.mount)).
  reflexivity.
Defined.

(** ** The error mapping *)

Lemma keys_length_size (o : gmap string jsstring) : keys_length o = base.size o.
Proof. unfold keys_length. by rewrite length_map, length_map_to_list. Qed.

Lemma keys_length_eqb (o : gmap string jsstring) :
  (keys_length o =? 0) = bool_decide (o = ∅).
Proof.
  rewrite keys_length_size. case_bool_decide as Ho.
  - subst o. by rewrite map_size_empty.
  - apply Nat.eqb_neq. by rewrite map_size_empty_iff.
Qed.

Lemma keys_length_ltb (o : gmap string jsstring) :
  (0 <? keys_length o) = negb (bool_decide (o = ∅)).
Proof.
  rewrite <- keys_length_eqb. by destruct (keys_length o).
Qed.

Lemma collect_snoc inner e :
  collect (inner ++ [e]) = <[Yup.path e := Yup.errmessage e]> (collect inner).
Proof. unfold collect. by rewrite foldl_app. Qed.

Lemma collect_empty_inv inner : collect inner = ∅ -> inner = [].
Proof.
  destruct inner as [|e inner _] using rev_ind; [done|].
  rewrite collect_snoc. intros H. by apply insert_non_empty in H.
Qed.

Lemma runTests_nil_inv {T} (ts : list (Yup.Test T)) p v :
  Yup.runTests ts p v = [] -> forallb (fun t => Yup.test t v) ts = true.
Proof.
  induction ts as [|t ts IH]; simpl; [done|].
  destruct (Yup.test t v); [auto|done].
Qed.

Lemma _validate_nil_inv {T} (s : Yup.Schema T) p v :
  Yup._validate s p v = [] ->
  forallb (fun t => Yup.test t (Yup.cast s v)) (Yup.internalTests s) = true
  ∧ forallb (fun t => Yup.test t (Yup.cast s v)) (Yup.tests s) = true.
Proof.
  unfold Yup._validate. cbv zeta.
  destruct (Yup.runTests (Yup.internalTests s) p (Yup.cast s v)) eqn:Hi;
    [|done].
  intros Ht. split; eapply runTests_nil_inv; eauto.
Qed.

Lemma fullName_tests_inv n :
  bool_decide (JS.trim n = JS.trim (JS.trim n))
  && ((3 <=? length (JS.trim n))
  && ((length (JS.trim n) <=? 20)
  && (negb (length (JS.trim n) =? 0) && true))) = true ->
  3 <= length (JS.trim n) <= 20.
Proof.
  rewrite !andb_true_iff, !Nat.leb_le. tauto.
Qed.

Lemma size_tests_inv (z : jsstring) :
  bool_decide (z ∈ [str "S"; str "M"; str "L"]) && true = true ->
  z ∈ [str "S"; str "M"; str "L"].
Proof.
  rewrite andb_true_iff. intros [H _]. by apply bool_decide_eq_true_1 in H.
Qed.

Lemma validate_resolved_inv {O} (shape : Yup.object O) (data : O) :
  match Yup.validate shape data with
  | Yup.Resolved => ∅
  | Yup.Rejected inner => collect inner
  end = ∅ ->
  flat_map (fun f => Yup._validate (Yup.fschema f) (Yup.key f) (Yup.get f data))
           shape = [].
Proof.
  unfold Yup.validate. destruct (flat_map _ _) eqn:E; [done|].
  by intros H%collect_empty_inv.
Qed.

Lemma first_validateForm_empty_inv d :
  First.validateForm d = ∅ ->
  3 <= length (JS.trim (fullName d)) <= 20
  ∧ size d ∈ [str "S"; str "M"; str "L"].
Proof.
  destruct d as [n z t]; cbn [fullName size].
  unfold First.validateForm. intros Hl%validate_resolved_inv.
  unfold First.pizzaSchema in Hl.
  cbn [flat_map Yup.fschema Yup.key Yup.get fullName size toppings] in Hl.
  apply app_eq_nil in Hl as [Hn Hl].
  apply app_eq_nil in Hl as [Hz _].
  apply _validate_nil_inv in Hn as [_ Hn].
  apply _validate_nil_inv in Hz as [Hz _].
  split; [by apply fullName_tests_inv|by apply size_tests_inv].
Qed.

Lemma second_validateForm_empty_inv d :
  Second.validateForm d = ∅ ->
  3 <= length (JS.trim (fullName d)) <= 20
  ∧ size d ∈ [str "S"; str "M"; str "L"].
Proof.
  destruct d as [n z t]; cbn [fullName size].
  unfold Second.validateForm. intros Hl%validate_resolved_inv.
  unfold Second.pizzaSchema in Hl.
  cbn [flat_map Yup.fschema Yup.key Yup.get fullName size toppings] in Hl.
  apply app_eq_nil in Hl as [Hn Hl].
  apply app_eq_nil in Hl as [Hz _].
  apply _validate_nil_inv in Hn as [_ Hn].
  apply _validate_nil_inv in Hz as [Hz _].
  split; [by apply fullName_tests_inv|by apply size_tests_inv].
Qed.

(** The two revisions accept the same forms. *)
Lemma validateForm_empty_agree d :
  First.validateForm d = ∅ ↔ Second.validateForm d = ∅.
Proof.
  split.
  - intros [??]%first_validateForm_empty_inv.
    by apply second_validateForm_valid.
  - intros [??]%second_validateForm_empty_inv.
    by apply first_validateForm_valid.
Qed.

(** ** Strings that [trim] leaves alone *)

Lemma trimEnd_last s d :
  last s = Some d -> JS.isWhiteSpace d = false -> JS.trimEnd s = s.
Proof.
  intros [s' ->]%last_Some Hd. unfold JS.trimEnd.
  rewrite rev_app_distr.
  change (rev [d] ++ rev s') with (d :: rev s').
  rewrite trimStart_head by done.
  change (d :: rev s') with (rev [d] ++ rev s').
  by rewrite <- rev_app_distr, rev_involutive.
Qed.

Lemma trim_fixed s c d :
  head s = Some c -> JS.isWhiteSpace c = false ->
  last s = Some d -> JS.isWhiteSpace d = false ->
  JS.trim s = s.
Proof.
  intros Hh Hc Hl Hd. destruct s as [|c' s]; [done|].
  injection Hh as ->.
  unfold JS.trim. rewrite trimStart_head by done.
  by apply trimEnd_last with d.
Qed.

(** ** The submit handler *)

Lemma first_resumed_blocked d random c :
  First.validateForm d ≠ ∅ ->
  First.handleSubmit_resumed d random c
  = c |> First.setErrors (First.validateForm d) |> First.setIsSubmitting false.
Proof.
  intros Hd. unfold First.handleSubmit_resumed. cbv zeta.
  rewrite keys_length_eqb. by rewrite bool_decide_eq_false_2.
Qed.

Lemma second_resumed_blocked d c :
  Second.validateForm d ≠ ∅ ->
  Second.handleSubmit_resumed d c
  = c |> Second.setErrors (Second.validateForm d)
      |> Second.setIsSubmitting false.
Proof.
  intros Hd. unfold Second.handleSubmit_resumed. cbv zeta.
  rewrite keys_length_eqb. by rewrite bool_decide_eq_false_2.
Qed.

Lemma first_resumed_console d random c :
  First.console (First.handleSubmit_resumed d random c)
  = First.console c
    ++ (if bool_decide (First.validateForm d = ∅) then [LogSubmitted d] else []).
Proof.
  unfold First.handleSubmit_resumed. cbv zeta. rewrite keys_length_eqb.
  case_bool_decide; [|by rewrite app_nil_r].
  by destruct random.
Qed.

Lemma second_resumed_console d c :
  Second.console (Second.handleSubmit_resumed d c)
  = Second.console c
    ++ (if bool_decide (Second.validateForm d = ∅) then [LogSubmitted d] else []).
Proof.
  unfold Second.handleSubmit_resumed. cbv zeta. rewrite keys_length_eqb.
  case_bool_decide; [done|by rewrite app_nil_r].
Qed.

(** C2 (amended).  [handleSubmit] attempts the submission only when the
    error mapping computed from the form at that moment is empty.  When the
    mapping is not empty nothing is written to the console and no outcome is
    recorded: the component is left as it was apart from the error mapping,
    the cleared in-flight flag and, in the second revision, the
    submit-attempted flag, which is set. *)
Theorem C2_submission_only_when_valid :
  (∀ (random : bool) (c : First.Component),
     let d := First.formData (First.cells c) in
     let c' := first_handleSubmit_whole random c in
     (First.console c' ≠ First.console c -> First.validateForm d = ∅)
     ∧ (First.validateForm d ≠ ∅ ->
        c' = c |> First.setErrors (First.validateForm d)
               |> First.setIsSubmitting false))
  ∧
  (∀ c : Second.Component,
     let d := Second.formData (Second.cells c) in
     let c' := second_handleSubmit_whole c in
     (Second.console c' ≠ Second.console c -> Second.validateForm d = ∅)
     ∧ (Second.validateForm d ≠ ∅ ->
        c' = c |> Second.setErrors (Second.validateForm d)
               |> Second.setIsSubmitting false
               |> Second.setHasAttemptedSubmit true)).
Proof.
  split.
  - intros random c d c'. subst c'. unfold first_handleSubmit_whole.
    fold d. split.
    + rewrite first_resumed_console.
      case_bool_decide; [done|]. intros []. by rewrite app_nil_r.
    + intros Hd. by rewrite first_resumed_blocked.
  - intros c d c'. subst c'. unfold second_handleSubmit_whole.
    fold d. split.
    + rewrite second_resumed_console.
      case_bool_decide; [done|]. intros []. by rewrite app_nil_r.
    + intros Hd. by rewrite second_resumed_blocked.
Qed.

Lemma C2_witness :
  first_handleSubmit_whole true First.mount
  = First.mount |> First.setErrors (First.validateForm (mkFormData [] [] []))
                |> First.setIsSubmitting false.
Proof.
  apply (proj2 (proj1 C2_submission_only_when_valid true First.mount)).
  vm_compute. discriminate.
Defined.

(** In the second revision a blocked submit changes more than the error
    mapping and the in-flight flag: on the form "Al", "M" the
    submit-attempted flag goes from [false] to [true]. *)
Lemma C2_counterexample :
  ∃ c, Second.run enter_Al_M Second.mount = Some c
     ∧ Second.validateForm (Second.formData (Second.cells c)) ≠ ∅
     ∧ second_handleSubmit_whole c
       ≠ (c |> Second.setErrors
                 (Second.validateForm (Second.formData (Second.cells c)))
            |> Second.setIsSubmitting false)
     ∧ Second.hasAttemptedSubmit (Second.cells c) = false
     ∧ Second.hasAttemptedSubmit (Second.cells (second_handleSubmit_whole c))
       = true.
Proof.
  eexists. split; [by vm_compute|].
  split; [vm_compute; discriminate|].
  split; [vm_compute; discriminate|].
  split; by vm_compute.
Qed.

(** ** The confirmation message *)

Lemma toppingMessage_phrase (n : nat) :
  (if n =? 0 then str "with no toppings"
   else if n =? 1 then str "with 1 topping"
   else str "with " ++ JS.String_of_nat n ++ str " toppings")
  = str "with " ++ toppings_phrase n.
Proof. by destruct n as [|[|n]]. Qed.

Lemma sizeText_word (z : jsstring) :
  z ∈ [str "S"; str "M"; str "L"] ->
  (z, if bool_decide (z = str "S") then str "small"
      else if bool_decide (z = str "M") then str "medium"
      else str "large") ∈ size_words.
Proof.
  rewrite !elem_of_cons, elem_of_nil. unfold size_words.
  intros [->|[->|[->|[]]]]; cbn; rewrite !elem_of_cons; tauto.
Qed.

Lemma last_toppings_phrase n :
  last (toppings_phrase n) = Some 115%N ∨ last (toppings_phrase n) = Some 103%N.
Proof.
  destruct n as [|[|n]]; [by left|by right|left].
  unfold toppings_phrase. by rewrite last_app.
Qed.

Lemma first_message_trimmed (name w : jsstring) (n : nat) :
  JS.trim (str "Thank you for your order, " ++ name ++ str "! Your " ++ w
           ++ str " pizza " ++ str "with " ++ toppings_phrase n)
  = str "Thank you for your order, " ++ name ++ str "! Your " ++ w
    ++ str " pizza " ++ str "with " ++ toppings_phrase n.
Proof.
  destruct (last_toppings_phrase n) as [Hl|Hl].
  - apply (trim_fixed _ 84%N 115%N); [done|done| |done].
    by rewrite !last_app, Hl.
  - apply (trim_fixed _ 84%N 103%N); [done|done| |done].
    by rewrite !last_app, Hl.
Qed.

Lemma second_message_trimmed (name w : jsstring) (n : nat) :
  JS.trim (str "Thank you for your order, " ++ name ++ str "! Your " ++ w
           ++ str " pizza " ++ (str "with " ++ toppings_phrase n)
           ++ str " is on the way.")
  = str "Thank you for your order, " ++ name ++ str "! Your " ++ w
    ++ str " pizza " ++ (str "with " ++ toppings_phrase n)
    ++ str " is on the way.".
Proof.
  apply (trim_fixed _ 84%N 46%N); [done|done| |done].
  by rewrite !last_app.
Qed.

Lemma resumed_success (d : FormData) :
  First.validateForm d = ∅ ->
  ∃ w, (size d, w) ∈ size_words
  ∧ (∀ c : First.Component,
       let s' := First.cells (First.handleSubmit_resumed d true c) in
       First.formData s' = mkFormData [] [] []
       ∧ First.orderSuccess s' = true
       ∧ First.orderFailure s' = false
       ∧ First.isSubmitting s' = false
       ∧ First.orderMessage s'
         = str "Thank you for your order, " ++ fullName d ++ str "! Your "
           ++ w ++ str " pizza with " ++ toppings_phrase (length (toppings d)))
  ∧ (∀ c : Second.Component,
       let s' := Second.cells (Second.handleSubmit_resumed d c) in
       Second.formData s' = mkFormData [] [] []
       ∧ Second.touched s' = ∅
       ∧ Second.hasAttemptedSubmit s' = false
       ∧ Second.orderSuccess s' = true
       ∧ Second.orderFailure s' = false
       ∧ Second.isSubmitting s' = false
       ∧ Second.orderMessage s'
         = str "Thank you for your order, " ++ fullName d ++ str "! Your "
           ++ w ++ str " pizza with " ++ toppings_phrase (length (toppings d))
           ++ str " is on the way.").
Proof.
  intros Hd.
  assert (Hd2 : Second.validateForm d = ∅) by by apply validateForm_empty_agree.
  destruct (first_validateForm_empty_inv d Hd) as [_ Hz].
  eexists. split; [exact (sizeText_word _ Hz)|]. split.
  - intros c. unfold First.handleSubmit_resumed. cbv zeta.
    rewrite keys_length_eqb, bool_decide_eq_true_2 by done.
    cbn. split_and!; try done.
    rewrite toppingMessage_phrase.
    rewrite first_message_trimmed. reflexivity.
  - intros c. unfold Second.handleSubmit_resumed. cbv zeta.
    rewrite keys_length_eqb, bool_decide_eq_true_2 by done.
    cbn. split_and!; try done.
    rewrite toppingMessage_phrase.
    rewrite second_message_trimmed. reflexivity.
Qed.

Lemma first_commit_cells before after :
  First.cells (First.commit before after) = First.cells after.
Proof.
  unfold First.commit, First.useEffect_validate, First.useEffect_banner.
  cbv zeta. by repeat case_match.
Qed.

Lemma second_commit_cells before after :
  Second.cells (Second.commit before after) = Second.cells after.
Proof.
  unfold Second.commit, Second.useEffect_validate, Second.useEffect_banner.
  cbv zeta. by repeat case_match.
Qed.

(** C4.  When the submission of a valid form succeeds, the form is reset to
    its empty initial values, the touched and submit-attempted flags (which
    only the second revision has) are cleared, and the stored confirmation
    message names the size and counts the toppings as "no toppings",
    "1 topping" or "N toppings". *)
Theorem C4_success_resets_and_confirms (d : FormData) :
  First.validateForm d = ∅ ->
  ∃ w, (size d, w) ∈ size_words
  ∧ (∀ (c : First.Component) rest,
       First.pending c = SubmitAwait d :: rest ->
       ∃ c', First.step (Settle true) c = Some c'
       ∧ First.formData (First.cells c') = mkFormData [] [] []
       ∧ First.orderSuccess (First.cells c') = true
       ∧ First.orderFailure (First.cells c') = false
       ∧ First.isSubmitting (First.cells c') = false
       ∧ First.orderMessage (First.cells c')
         = str "Thank you for your order, " ++ fullName d ++ str "! Your "
           ++ w ++ str " pizza with " ++ toppings_phrase (length (toppings d)))
  ∧ (∀ (c : Second.Component) rest random,
       Second.pending c = SubmitAwait d :: rest ->
       ∃ c', Second.step (Settle random) c = Some c'
       ∧ Second.formData (Second.cells c') = mkFormData [] [] []
       ∧ Second.touched (Second.cells c') = ∅
       ∧ Second.hasAttemptedSubmit (Second.cells c') = false
       ∧ Second.orderSuccess (Second.cells c') = true
       ∧ Second.orderFailure (Second.cells c') = false
       ∧ Second.isSubmitting (Second.cells c') = false
       ∧ Second.orderMessage (Second.cells c')
         = str "Thank you for your order, " ++ fullName d ++ str "! Your "
           ++ w ++ str " pizza with " ++ toppings_phrase (length (toppings d))
           ++ str " is on the way.").
Proof.
  intros Hd. destruct (resumed_success d Hd) as (w & Hw & H1 & H2).
  exists w. split; [done|]. split.
  - intros c rest Hq. eexists. split.
    { unfold First.step. rewrite Hq. reflexivity. }
    rewrite first_commit_cells. apply H1.
  - intros c rest random Hq. eexists. split.
    { unfold Second.step. rewrite Hq. reflexivity. }
    rewrite second_commit_cells. apply H2.
Qed.

Lemma C4_witness :
  let d := mkFormData (str "Alice") (str "S") [str "1"; str "3"] in
  First.validateForm d = ∅
  ∧ ∃ w, (size d, w) ∈ size_words
  ∧ (∀ (c : First.Component) rest,
       First.pending c = SubmitAwait d :: rest ->
       ∃ c', First.step (Settle true) c = Some c'
       ∧ First.formData (First.cells c') = mkFormData [] [] []
       ∧ First.orderSuccess (First.cells c') = true
       ∧ First.orderFailure (First.cells c') = false
       ∧ First.isSubmitting (First.cells c') = false
       ∧ First.orderMessage (First.cells c')
         = str "Thank you for your order, " ++ fullName d ++ str "! Your "
           ++ w ++ str " pizza with " ++ toppings_phrase (length (toppings d)))
  ∧ (∀ (c : Second.Component) rest random,
       Second.pending c = SubmitAwait d :: rest ->
       ∃ c', Second.step (Settle random) c = Some c'
       ∧ Second.formData (Second.cells c') = mkFormData [] [] []
       ∧ Second.touched (Second.cells c') = ∅
       ∧ Second.hasAttemptedSubmit (Second.cells c') = false
       ∧ Second.orderSuccess (Second.cells c') = true
       ∧ Second.orderFailure (Second.cells c') = false
       ∧ Second.isSubmitting (Second.cells c') = false
       ∧ Second.orderMessage (Second.cells c')
         = str "Thank you for your order, " ++ fullName d ++ str "! Your "
           ++ w ++ str " pizza with " ++ toppings_phrase (length (toppings d))
           ++ str " is on the way.").
Proof.
  cbv zeta.
  assert (H : First.validateForm
                (mkFormData (str "Alice") (str "S") [str "1"; str "3"]) = ∅)
    by (by vm_compute).
  split; [exact H|].
  exact (C4_success_resets_and_confirms
           (mkFormData (str "Alice") (str "S") [str "1"; str "3"]) H).
Defined.

(** ** The failure branch *)

Lemma first_resumed_failure d c :
  First.validateForm d = ∅ ->
  First.handleSubmit_resumed d false c
  = c |> First.setErrors (First.validateForm d)
      |> First.console_log (LogSubmitted d)
      |> First.setOrderSuccess false
      |> First.setOrderFailure true
      |> First.setOrderMessage []
      |> First.setIsSubmitting false.
Proof.
  intros Hd. unfold First.handleSubmit_resumed. cbv zeta.
  by rewrite keys_length_eqb, bool_decide_eq_true_2.
Qed.

(** No step of the second revision turns the failure flag on. *)
Lemma second_never_fails e c c' :
  Second.step e c = Some c' ->
  Second.orderFailure (Second.cells c') = true ->
  Second.orderFailure (Second.cells c) = true.
Proof.
  destruct e as [id value| |t| |random|]; cbn [Second.step].
  - intros [= <-]. by rewrite second_commit_cells.
  - intros [= <-]. by rewrite second_commit_cells.
  - case_bool_decide; [|done]. intros [= <-]. rewrite second_commit_cells.
    unfold Second.handleToppingChange. cbv zeta. by case_match.
  - case_match; [done|]. intros [= <-]. by rewrite second_commit_cells.
  - destruct (Second.pending c) as [|[d|d] rest]; [done| |];
      cbv zeta; intros [= <-]; rewrite second_commit_cells; [done|].
    unfold Second.handleSubmit_resumed. cbv zeta. by case_match.
  - destruct (Second.timer c); [|done]. cbv zeta. intros [= <-].
    by rewrite second_commit_cells.
Qed.

(** C5.  When the submission of a valid form fails, the entered form data
    are left as they are and the banner shows the generic text.  Only the
    first revision can fail: in the second the outcome is the constant
    [true], no step turns the failure flag on, and the banner, were it
    shown, has the same text. *)
Theorem C5_failure_keeps_the_form (d : FormData) :
  First.validateForm d = ∅ ->
  (∀ (c : First.Component) rest,
     First.pending c = SubmitAwait d :: rest ->
     ∃ c', First.step (Settle false) c = Some c'
     ∧ First.formData (First.cells c') = First.formData (First.cells c)
     ∧ First.orderFailure (First.cells c') = true
     ∧ First.orderSuccess (First.cells c') = false
     ∧ failureBanner (First.render (First.cells c'))
       = Some (str "Something went wrong")
     ∧ successBanner (First.render (First.cells c')) = None)
  ∧ (∀ e (c c' : Second.Component),
       Second.step e c = Some c' ->
       Second.orderFailure (Second.cells c') = true ->
       Second.orderFailure (Second.cells c) = true)
  ∧ (∀ s : Second.State,
       Second.orderFailure s = true ->
       failureBanner (Second.render s) = Some (str "Something went wrong")).
Proof.
  intros Hd. split_and!.
  - intros c rest Hq. eexists. split.
    { unfold First.step. rewrite Hq. reflexivity. }
    rewrite first_commit_cells. by rewrite first_resumed_failure.
  - apply second_never_fails.
  - intros s Hs. cbn. by rewrite Hs.
Qed.

Lemma C5_witness :
  let d := mkFormData (str "Alice") (str "S") [str "1"; str "3"] in
  First.validateForm d = ∅
  ∧ ∀ (c : First.Component) rest,
      First.pending c = SubmitAwait d :: rest ->
      ∃ c', First.step (Settle false) c = Some c'
      ∧ First.formData (First.cells c') = First.formData (First.cells c)
      ∧ First.orderFailure (First.cells c') = true
      ∧ First.orderSuccess (First.cells c') = false
      ∧ failureBanner (First.render (First.cells c'))
        = Some (str "Something went wrong")
      ∧ successBanner (First.render (First.cells c')) = None.
Proof.
  cbv zeta.
  assert (H : First.validateForm
                (mkFormData (str "Alice") (str "S") [str "1"; str "3"]) = ∅)
    by (by vm_compute).
  split; [exact H|].
  exact (proj1 (C5_failure_keeps_the_form
                  (mkFormData (str "Alice") (str "S") [str "1"; str "3"]) H)).
Defined.

(** ** Invariants of the reachable states *)

Lemma eqb_succ n : (n =? S n) = false.
Proof. apply Nat.eqb_neq. lia. Qed.

Lemma invalid_true V d : V d ≠ ∅ -> invalid V d = true.
Proof.
  intros Hd. unfold invalid. rewrite keys_length_ltb.
  by rewrite bool_decide_eq_false_2.
Qed.

Lemma invalid_false V d : V d = ∅ -> invalid V d = false.
Proof.
  intros Hd. unfold invalid. rewrite keys_length_ltb.
  by rewrite bool_decide_eq_true_2.
Qed.

Lemma sound_snoc_validation V dis q cur d :
  sound V dis q cur -> sound V dis (q ++ [ValidationEffect d]) d.
Proof.
  revert dis. induction q as [|[d'|d'] q IH]; intros dis; cbn.
  - done.
  - apply IH.
  - intros [-> H]. split; [done|]. by apply IH.
Qed.

Lemma sound_snoc_submit V dis q cur :
  sound V dis q cur -> sound V dis (q ++ [SubmitAwait cur]) cur.
Proof.
  revert dis. induction q as [|[d'|d'] q IH]; intros dis; cbn.
  - done.
  - apply IH.
  - intros [-> H]. split; [done|]. by apply IH.
Qed.

Lemma in_flight_app q1 q2 : in_flight (q1 ++ q2) = in_flight q1 + in_flight q2.
Proof.
  induction q1 as [|[d|d] q1 IH]; cbn; [done|done|by rewrite IH].
Qed.

Lemma first_commit_pending before after :
  First.pending (First.commit before after)
  = First.pending after
    ++ (if First.formDataId before =? First.formDataId after then []
        else [ValidationEffect (First.formData (First.cells after))]).
Proof.
  unfold First.commit, First.useEffect_validate, First.useEffect_banner.
  cbv zeta. repeat case_match; cbn; by rewrite ?app_nil_r.
Qed.

Lemma second_commit_pending before after :
  Second.pending (Second.commit before after)
  = Second.pending after
    ++ (if Second.formDataId before =? Second.formDataId after then []
        else [ValidationEffect (Second.formData (Second.cells after))]).
Proof.
  unfold Second.commit, Second.useEffect_validate, Second.useEffect_banner.
  cbv zeta. repeat case_match; cbn; by rewrite ?app_nil_r.
Qed.

Lemma settled_snoc V e q t cur :
  task_data t = cur -> settled V e (q ++ [t]) cur.
Proof. intros Ht. unfold settled. by rewrite last_snoc. Qed.

Lemma settled_pop V e e' t rest cur :
  settled V e (t :: rest) cur ->
  (task_data t = cur -> e' = V cur) ->
  settled V e' rest cur.
Proof.
  unfold settled. rewrite last_cons. destruct (last rest); auto.
Qed.

Lemma first_inv_mount : first_inv First.mount.
Proof.
  unfold first_inv. cbn. split_and!; [done|by vm_compute|done|done].
Qed.

Lemma second_inv_mount : second_inv Second.mount.
Proof.
  unfold second_inv. cbn. split_and!; [done|by vm_compute|done|done|done].
Qed.

Lemma first_inv_step e c c' :
  first_inv c -> First.step e c = Some c' -> first_inv c'.
Proof.
  intros (H1 & H2 & H3 & H4).
  destruct e as [id value| |t| |random|]; cbn [First.step].
  - intros [= <-]. unfold first_inv.
    rewrite first_commit_cells, first_commit_pending.
    unfold First.handleChange. cbn. rewrite eqb_succ.
    split_and!; [done|by eapply sound_snoc_validation| |by apply settled_snoc].
    by rewrite in_flight_app, Nat.add_0_r.
  - by intros [= <-].
  - case_bool_decide; [|done]. intros [= <-]. unfold first_inv.
    rewrite first_commit_cells, first_commit_pending.
    unfold First.handleToppingChange. cbv zeta.
    destruct (JS.includes _ _); cbn; rewrite eqb_succ;
      (split_and!;
         [done|by eapply sound_snoc_validation| |by apply settled_snoc]);
      by rewrite in_flight_app, Nat.add_0_r.
  - cbn. destruct (First.isSubmitDisabled _) eqn:Hdis; [done|].
    destruct (First.isSubmitting _) eqn:Hsub; [done|]. cbn.
    intros [= <-]. unfold first_inv.
    rewrite first_commit_cells, first_commit_pending.
    unfold First.handleSubmit. cbn. rewrite Nat.eqb_refl, app_nil_r.
    rewrite Hdis in *. split_and!.
    + auto.
    + by apply sound_snoc_submit.
    + rewrite in_flight_app, H3. done.
    + by apply settled_snoc.
  - destruct (First.pending c) as [|[d|d] rest] eqn:Hq; [done| |];
      cbv zeta; intros [= <-]; unfold first_inv;
      rewrite first_commit_cells, first_commit_pending; cbn in H2, H3.
    + unfold First.validate_resumed. cbv zeta.
      change (0 <? keys_length (First.validateForm d))
        with (invalid First.validateForm d).
      cbn. rewrite Nat.eqb_refl, app_nil_r.
      split_and!; [|done|done|].
      * intros Hne. left. by apply invalid_true.
      * eapply settled_pop; [done|]. by intros <-.
    + destruct H2 as [Hdis H2].
      destruct (First.isSubmitting (First.cells c)) eqn:Hsub; [|done].
      injection H3 as H3.
      destruct (decide (First.validateForm d = ∅)) as [Hd|Hd].
      * destruct random.
        -- unfold First.handleSubmit_resumed. cbv zeta.
           rewrite keys_length_eqb, bool_decide_eq_true_2 by done.
           cbn. rewrite eqb_succ. split_and!.
           ++ by rewrite Hd.
           ++ by eapply sound_snoc_validation.
           ++ by rewrite in_flight_app, H3.
           ++ by apply settled_snoc.
        -- rewrite first_resumed_failure by done. cbn.
           rewrite Nat.eqb_refl, app_nil_r.
           split_and!; [by rewrite Hd|done|done|].
           eapply settled_pop; [done|]. by intros <-.
      * rewrite first_resumed_blocked by done. cbn.
        rewrite Nat.eqb_refl, app_nil_r. split_and!; [|done|done|].
        -- intros _. left. rewrite Hdis. by apply invalid_true.
        -- eapply settled_pop; [done|]. by intros <-.
  - destruct (First.timer c); [|done]. cbv zeta. intros [= <-].
    unfold first_inv. rewrite first_commit_cells, first_commit_pending.
    unfold First.timer_fired. cbn. by rewrite Nat.eqb_refl, app_nil_r.
Qed.

Lemma first_reachable_inv c : First.reachable c -> first_inv c.
Proof.
  induction 1 as [|e c c' _ IH Hstep];
    [apply first_inv_mount|by eapply first_inv_step].
Qed.

Lemma second_inv_step e c c' :
  second_inv c -> Second.step e c = Some c' -> second_inv c'.
Proof.
  intros (H1 & H2 & H3 & H4 & H5).
  destruct e as [id value| |t| |random|]; cbn [Second.step].
  - intros [= <-]. unfold second_inv.
    rewrite second_commit_cells, second_commit_pending.
    unfold Second.handleChange. cbn. rewrite eqb_succ.
    split_and!;
      [done|by eapply sound_snoc_validation| |by apply settled_snoc|].
    + by rewrite in_flight_app, Nat.add_0_r.
    + rewrite lookup_insert_ne; [done|by destruct id].
  - intros [= <-]. unfold second_inv.
    rewrite second_commit_cells, second_commit_pending.
    unfold Second.handleBlur. cbn. rewrite Nat.eqb_refl, app_nil_r.
    split_and!; [done|done|done|done|]. by rewrite lookup_insert_ne.
  - case_bool_decide; [|done]. intros [= <-]. unfold second_inv.
    rewrite second_commit_cells, second_commit_pending.
    unfold Second.handleToppingChange. cbv zeta.
    destruct (JS.includes _ _); cbn; rewrite eqb_succ;
      (split_and!;
         [done|by eapply sound_snoc_validation| |by apply settled_snoc|]);
      by rewrite ?in_flight_app, ?Nat.add_0_r, ?lookup_insert_ne.
  - cbn. destruct (Second.isSubmitDisabled _) eqn:Hdis; [done|].
    destruct (Second.isSubmitting _) eqn:Hsub; [done|]. cbn.
    intros [= <-]. unfold second_inv.
    rewrite second_commit_cells, second_commit_pending.
    unfold Second.handleSubmit. cbn. rewrite Nat.eqb_refl, app_nil_r.
    rewrite Hdis in *. split_and!.
    + auto.
    + by apply sound_snoc_submit.
    + rewrite in_flight_app, H3. done.
    + by apply settled_snoc.
    + done.
  - destruct (Second.pending c) as [|[d|d] rest] eqn:Hq; [done| |];
      cbv zeta; intros [= <-]; unfold second_inv;
      rewrite second_commit_cells, second_commit_pending; cbn in H2, H3.
    + unfold Second.validate_resumed. cbv zeta.
      change (0 <? keys_length (Second.validateForm d))
        with (invalid Second.validateForm d).
      cbn. rewrite Nat.eqb_refl, app_nil_r.
      split_and!; [|done|done| |done].
      * intros Hne. left. by apply invalid_true.
      * eapply settled_pop; [done|]. by intros <-.
    + destruct H2 as [Hdis H2].
      destruct (Second.isSubmitting (Second.cells c)) eqn:Hsub; [|done].
      injection H3 as H3.
      destruct (decide (Second.validateForm d = ∅)) as [Hd|Hd].
      * unfold Second.handleSubmit_resumed. cbv zeta.
        rewrite keys_length_eqb, bool_decide_eq_true_2 by done.
        cbn. rewrite eqb_succ. split_and!.
        -- done.
        -- by eapply sound_snoc_validation.
        -- by rewrite in_flight_app, H3.
        -- by apply settled_snoc.
        -- done.
      * rewrite second_resumed_blocked by done. cbn.
        rewrite Nat.eqb_refl, app_nil_r. split_and!; [|done|done| |done].
        -- intros _. left. rewrite Hdis. by apply invalid_true.
        -- eapply settled_pop; [done|]. by intros <-.
  - destruct (Second.timer c); [|done]. cbv zeta. intros [= <-].
    unfold second_inv. rewrite second_commit_cells, second_commit_pending.
    unfold Second.timer_fired. cbn. by rewrite Nat.eqb_refl, app_nil_r.
Qed.

Lemma second_reachable_inv c : Second.reachable c -> second_inv c.
Proof.
  induction 1 as [|e c c' _ IH Hstep];
    [apply second_inv_mount|by eapply second_inv_step].
Qed.

(** When nothing is parked, the error mapping and the disabled flag are
    those of the form on display. *)
Lemma first_quiescent c :
  First.reachable c -> First.pending c = [] ->
  First.errors (First.cells c)
  = First.validateForm (First.formData (First.cells c))
  ∧ First.isSubmitDisabled (First.cells c)
    = invalid First.validateForm (First.formData (First.cells c)).
Proof.
  intros (_ & H2 & _ & H4)%first_reachable_inv Hq.
  rewrite Hq in H2, H4. by split.
Qed.

Lemma second_quiescent c :
  Second.reachable c -> Second.pending c = [] ->
  Second.errors (Second.cells c)
  = Second.validateForm (Second.formData (Second.cells c))
  ∧ Second.isSubmitDisabled (Second.cells c)
    = invalid Second.validateForm (Second.formData (Second.cells c)).
Proof.
  intros (_ & H2 & _ & H4 & _)%second_reachable_inv Hq.
  rewrite Hq in H2, H4. by split.
Qed.

Lemma first_run_reachable es c c' :
  First.reachable c -> First.run es c = Some c' -> First.reachable c'.
Proof.
  revert c. induction es as [|e es IH]; intros c Hc; cbn.
  - by intros [= <-].
  - destruct (First.step e c) as [c1|] eqn:He; [|done].
    apply IH. by eapply First.reachable_step.
Qed.

Lemma second_run_reachable es c c' :
  Second.reachable c -> Second.run es c = Some c' -> Second.reachable c'.
Proof.
  revert c. induction es as [|e es IH]; intros c Hc; cbn.
  - by intros [= <-].
  - destruct (Second.step e c) as [c1|] eqn:He; [|done].
    apply IH. by eapply Second.reachable_step.
Qed.

(** C3.  In every reachable state a non-empty error mapping comes with a
    disabled submit control, whatever has been touched. *)
Theorem C3_errors_disable_submit :
  (∀ c : First.Component,
     First.reachable c ->
     First.errors (First.cells c) ≠ ∅ ->
     submitDisabled (First.render (First.cells c)) = true)
  ∧ (∀ c : Second.Component,
       Second.reachable c ->
       Second.errors (Second.cells c) ≠ ∅ ->
       submitDisabled (Second.render (Second.cells c)) = true).
Proof.
  split.
  - intros c (H1 & _)%first_reachable_inv Hne. cbn.
    destruct (H1 Hne) as [-> | ->]; [done|by rewrite orb_true_r].
  - intros c (H1 & _)%second_reachable_inv Hne. cbn.
    destruct (H1 Hne) as [-> | ->]; [done|by rewrite orb_true_r].
Qed.

Lemma C3_witness :
  ∃ c, First.run enter_Al_M First.mount = Some c
     ∧ First.errors (First.cells c) ≠ ∅
     ∧ submitDisabled (First.render (First.cells c)) = true.
Proof.
  eexists. split; [by vm_compute|].
  assert (Hne : First.errors
                  (First.cells
                     (default First.mount (First.run enter_Al_M First.mount)))
                ≠ ∅) by (vm_compute; discriminate).
  split; [exact Hne|].
  refine (proj1 C3_errors_disable_submit _ _ Hne).
  apply (first_run_reachable enter_Al_M First.mount);
    [apply First.reachable_mount|by vm_compute].
Defined.

(** C9.  In every reachable state the in-flight flag is set exactly while a
    [handleSubmit] is parked at its [await], at most one is parked, and
    while the flag is set the submit control is disabled and a submit
    event cannot happen. *)
Theorem C9_no_second_submission_in_flight :
  (∀ c : First.Component,
     First.reachable c ->
     (First.isSubmitting (First.cells c) = true
      ↔ in_flight (First.pending c) = 1)
     ∧ in_flight (First.pending c) <= 1
     ∧ (First.isSubmitting (First.cells c) = true ->
        submitDisabled (First.render (First.cells c)) = true
        ∧ First.step Submit c = None))
  ∧ (∀ c : Second.Component,
       Second.reachable c ->
       (Second.isSubmitting (Second.cells c) = true
        ↔ in_flight (Second.pending c) = 1)
       ∧ in_flight (Second.pending c) <= 1
       ∧ (Second.isSubmitting (Second.cells c) = true ->
          submitDisabled (Second.render (Second.cells c)) = true
          ∧ Second.step Submit c = None)).
Proof.
  split.
  - intros c (_ & _ & H3 & _)%first_reachable_inv. rewrite H3.
    cbn. destruct (First.isSubmitting _); split_and!; try done; try lia.
    intros _. by rewrite orb_true_r.
  - intros c (_ & _ & H3 & _)%second_reachable_inv. rewrite H3.
    cbn. destruct (Second.isSubmitting _); split_and!; try done; try lia.
    intros _. by rewrite orb_true_r.
Qed.

Lemma C9_witness :
  ∃ c, First.run submit_Alice First.mount = Some c
     ∧ First.isSubmitting (First.cells c) = true
     ∧ in_flight (First.pending c) = 1
     ∧ submitDisabled (First.render (First.cells c)) = true
     ∧ First.step Submit c = None.
Proof.
  eexists. split; [by vm_compute|].
  assert (Hr : First.reachable
                 (default First.mount (First.run submit_Alice First.mount))).
  { apply (first_run_reachable submit_Alice First.mount);
      [apply First.reachable_mount|by vm_compute]. }
  assert (Hs : First.isSubmitting
                 (First.cells
                    (default First.mount (First.run submit_Alice First.mount)))
               = true) by (by vm_compute).
  destruct (proj1 C9_no_second_submission_in_flight _ Hr) as (H1 & _ & H3).
  split; [exact Hs|].
  split; [exact (proj1 H1 Hs)|].
  exact (H3 Hs).
Defined.

(** ** Per-field error texts *)

Lemma errorText_Some e m : errorText e = Some m -> e = Some m.
Proof. unfold errorText. by destruct (JS.truthy e); intros [= ->]. Qed.

Lemma gated_Some b e m :
  Second.gated b (errorText e) = Some m -> b = true ∧ e = Some m.
Proof.
  destruct b; cbn; [|done]. intros H. by apply errorText_Some in H.
Qed.

(** The reachable states are the states the runs from the mount end in. *)
Lemma second_run_snoc es e c c1 c' :
  Second.run es c = Some c1 -> Second.step e c1 = Some c' ->
  Second.run (es ++ [e]) c = Some c'.
Proof.
  revert c. induction es as [|e0 es IH]; intros c; cbn [Second.run app].
  - intros [= ->] ->. done.
  - destruct (Second.step e0 c) as [c0|]; [|done]. apply IH.
Qed.

Lemma second_reachable_run c :
  Second.reachable c -> ∃ es, Second.run es Second.mount = Some c.
Proof.
  induction 1 as [|e c c' _ [es IH] Hstep]; [by exists []|].
  exists (es ++ [e]). by eapply second_run_snoc.
Qed.

Lemma flag_empty k : Second.flag ∅ k = false.
Proof. unfold Second.flag. by rewrite lookup_empty. Qed.

Lemma flag_insert (t : gmap string bool) k f :
  Second.flag (<[k := true]> t) f = true ->
  Second.flag t f = true ∨ k = f.
Proof.
  destruct (decide (k = f)) as [->|Hk]; [by right|].
  unfold Second.flag. rewrite lookup_insert_ne by done. by left.
Qed.

(** A step marks a field as touched only if it is an event that touches
    that field, and marks a submit as attempted only if it is a submit. *)
Lemma second_step_flags f e c c' :
  Second.step e c = Some c' ->
  (Second.flag (Second.touched (Second.cells c')) f = true ->
   Second.flag (Second.touched (Second.cells c)) f = true
   ∨ touches f e = true)
  ∧ (Second.hasAttemptedSubmit (Second.cells c') = true ->
     Second.hasAttemptedSubmit (Second.cells c) = true ∨ attempts e = true).
Proof.
  destruct e as [id value| |t| |random|]; cbn [Second.step touches attempts].
  - intros [= <-]. rewrite second_commit_cells.
    unfold Second.handleChange. cbn. split; [|by left].
    intros [?|?]%flag_insert; [by left|right].
    by apply bool_decide_eq_true_2.
  - intros [= <-]. rewrite second_commit_cells.
    unfold Second.handleBlur. cbn. split; [|by left].
    intros [?|?]%flag_insert; [by left|right].
    by apply bool_decide_eq_true_2.
  - case_bool_decide; [|done]. intros [= <-]. rewrite second_commit_cells.
    unfold Second.handleToppingChange. cbv zeta.
    destruct (JS.includes _ _); cbn; (split; [|by left]);
      (intros [?|?]%flag_insert; [by left|right]);
      by apply bool_decide_eq_true_2.
  - destruct (submitDisabled _); [done|]. intros [= <-].
    rewrite second_commit_cells. cbn. split; [by left|by right].
  - destruct (Second.pending c) as [|[d|d] rest]; [done| |];
      cbv zeta; intros [= <-]; rewrite second_commit_cells.
    + cbn. split; by left.
    + unfold Second.handleSubmit_resumed. cbv zeta.
      destruct (_ =? _); cbn; [|split; by left].
      rewrite flag_empty. by split.
  - destruct (Second.timer c); [|done]. cbv zeta. intros [= <-].
    rewrite second_commit_cells. cbn. split; by left.
Qed.

Lemma second_run_flags f es c c' :
  Second.run es c = Some c' ->
  (Second.flag (Second.touched (Second.cells c')) f = true ->
   Second.flag (Second.touched (Second.cells c)) f = true
   ∨ existsb (touches f) es = true)
  ∧ (Second.hasAttemptedSubmit (Second.cells c') = true ->
     Second.hasAttemptedSubmit (Second.cells c) = true
     ∨ existsb attempts es = true).
Proof.
  revert c. induction es as [|e es IH]; intros c; cbn [Second.run existsb].
  - intros [= <-]. split; by left.
  - destruct (Second.step e c) as [c1|] eqn:He; [|done]. intros Hrun.
    destruct (IH c1 Hrun) as [IHt IHa].
    destruct (second_step_flags f e c c1 He) as [Ht Ha].
    split.
    + intros [H1|H1]%IHt; [|right; by rewrite H1, orb_true_r].
      destruct (Ht H1) as [?|H2]; [by left|right; by rewrite H2].
    + intros [H1|H1]%IHa; [|right; by rewrite H1, orb_true_r].
      destruct (Ha H1) as [?|H2]; [by left|right; by rewrite H2].
Qed.

(** What the form of the second revision asks for before it shows the
    error text of a field: an entry in the error mapping, and the
    submit-attempted flag or the flag of the key it reads for the field. *)
Lemma second_error_text_of f s m :
  f ∈ form_fields ->
  error_text_of f (Second.render s) = Some m ->
  Second.errors s !! f = Some m
  ∧ (Second.hasAttemptedSubmit s = true
     ∨ Second.flag (Second.touched s) f = true
     ∨ Second.flag (Second.touched s) "topping" = true).
Proof.
  unfold form_fields. rewrite !elem_of_cons, elem_of_nil.
  intros [->|[->|[->|[]]]].
  - change (error_text_of "fullName" (Second.render s))
      with (fullNameError (Second.render s)).
    cbn. intros [Hb He]%gated_Some. split; [done|].
    apply orb_true_iff in Hb as [?|?]; auto.
  - change (error_text_of "size" (Second.render s))
      with (sizeError (Second.render s)).
    cbn. intros [Hb He]%gated_Some. split; [done|].
    apply orb_true_iff in Hb as [?|?]; auto.
  - change (error_text_of "toppings" (Second.render s))
      with (toppingsError (Second.render s)).
    cbn. intros [Hb He]%gated_Some. split; [done|].
    apply orb_true_iff in Hb as [?|?]; auto.
Qed.

Lemma first_error_text_of f s m :
  f ∈ form_fields ->
  error_text_of f (First.render s) = Some m ->
  First.errors s !! f = Some m.
Proof.
  unfold form_fields. rewrite !elem_of_cons, elem_of_nil.
  intros [->|[->|[->|[]]]].
  - change (error_text_of "fullName" (First.render s))
      with (fullNameError (First.render s)).
    cbn. apply errorText_Some.
  - change (error_text_of "size" (First.render s))
      with (sizeError (First.render s)).
    cbn. apply errorText_Some.
  - change (error_text_of "toppings" (First.render s))
      with (toppingsError (First.render s)).
    cbn. apply errorText_Some.
Qed.

(** C7 (amended).  In the second revision, starting from a reachable state
    in which a field is not marked as touched and no submit is marked as
    attempted (the mount is one), the error text of the field is rendered
    only after an event that touches that field (a change, a blur) or a
    submit event: a field that has not been touched shows no error text as
    long as no submit is attempted.  In both revisions, once nothing is
    parked, the error text of a field is rendered only when the field is
    invalid in the form on display, and it is the message validation gives
    for it. *)
Theorem C7_error_text_gating (f : string) (m : jsstring) :
  f ∈ form_fields ->
  (∀ (c : Second.Component) (es : list Event) (c' : Second.Component),
     Second.reachable c ->
     Second.hasAttemptedSubmit (Second.cells c) = false ->
     Second.flag (Second.touched (Second.cells c)) f = false ->
     Second.run es c = Some c' ->
     error_text_of f (Second.render (Second.cells c')) = Some m ->
     existsb (touches f) es || existsb attempts es = true
     ∧ (Second.pending c' = [] ->
        Second.validateForm (Second.formData (Second.cells c')) !! f
        = Some m))
  ∧ (∀ c : First.Component,
       First.reachable c -> First.pending c = [] ->
       error_text_of f (First.render (First.cells c)) = Some m ->
       First.validateForm (First.formData (First.cells c)) !! f = Some m).
Proof.
  intros Hf. split.
  - intros c es c' Hr Ha Ht Hrun Hm.
    assert (Hr' : Second.reachable c') by by eapply second_run_reachable.
    destruct (second_error_text_of f _ m Hf Hm) as [He Hgate].
    destruct (second_run_flags f es c c' Hrun) as [Htouched Hattempted].
    split.
    + apply orb_true_iff.
      destruct Hgate as [H|[H|H]].
      * destruct (Hattempted H) as [?|?]; [congruence|by right].
      * destruct (Htouched H) as [?|?]; [congruence|by left].
      * apply second_reachable_inv in Hr' as (_ & _ & _ & _ & Hkey).
        unfold Second.flag in H. by rewrite Hkey in H.
    + intros Hq. destruct (second_quiescent c' Hr' Hq) as [<- _]. done.
  - intros c Hr Hq Hm.
    destruct (first_quiescent c Hr Hq) as [<- _].
    by apply first_error_text_of.
Qed.

Lemma C7_witness :
  let m := str "Full name must be at least 3 characters" in
  "fullName" ∈ form_fields
  ∧ (Second.run enter_Al_M Second.mount = Some (second_after enter_Al_M)
     ∧ error_text_of "fullName"
         (Second.render (Second.cells (second_after enter_Al_M))) = Some m
     ∧ existsb (touches "fullName") enter_Al_M
       || existsb attempts enter_Al_M = true
     ∧ Second.validateForm
         (Second.formData (Second.cells (second_after enter_Al_M)))
       !! "fullName" = Some m)
  ∧ (First.pending (first_after enter_Al_M) = []
     ∧ error_text_of "fullName"
         (First.render (First.cells (first_after enter_Al_M))) = Some m
     ∧ First.validateForm
         (First.formData (First.cells (first_after enter_Al_M)))
       !! "fullName" = Some m).
Proof.
  cbv zeta.
  assert (Hf : "fullName" ∈ form_fields) by apply list_elem_of_here.
  assert (Hrun : Second.run enter_Al_M Second.mount
                 = Some (second_after enter_Al_M)) by (by vm_compute).
  assert (Hm2 : error_text_of "fullName"
                  (Second.render (Second.cells (second_after enter_Al_M)))
                = Some (str "Full name must be at least 3 characters"))
    by (by vm_compute).
  assert (Hq2 : Second.pending (second_after enter_Al_M) = [])
    by (by vm_compute).
  assert (Hr1 : First.reachable (first_after enter_Al_M)).
  { unfold first_after.
    destruct (First.run enter_Al_M First.mount) as [c|] eqn:E;
      [|apply First.reachable_mount].
    by apply (first_run_reachable enter_Al_M First.mount);
      [apply First.reachable_mount|]. }
  assert (Hq1 : First.pending (first_after enter_Al_M) = [])
    by (by vm_compute).
  assert (Hm1 : error_text_of "fullName"
                  (First.render (First.cells (first_after enter_Al_M)))
                = Some (str "Full name must be at least 3 characters"))
    by (by vm_compute).
  destruct (C7_error_text_gating "fullName"
              (str "Full name must be at least 3 characters") Hf)
    as [H2 H1].
  destruct (H2 Second.mount enter_Al_M (second_after enter_Al_M)
              Second.reachable_mount eq_refl eq_refl Hrun Hm2)
    as [Hev Hval].
  split; [exact Hf|]. split.
  - split; [exact Hrun|]. split; [exact Hm2|].
    split; [exact Hev|exact (Hval Hq2)].
  - split; [exact Hq1|]. split; [exact Hm1|].
    exact (H1 _ Hr1 Hq1 Hm1).
Defined.

(** Two states in which the claim as first stated fails.  In the first
    revision a form that nobody has touched shows an error text: right
    after mounting, once the validation effect has resumed, the empty full
    name is reported although no event touches it and none attempts a
    submit.  In the second revision, after "Al" has been entered and
    reported as too short, the change to "Alice" leaves the text on display
    until the validation it parks resumes, although the name now in the
    form is valid. *)
Lemma C7_counterexample :
  (First.run [Settle true] First.mount = Some (first_after [Settle true])
   ∧ existsb (touches "fullName") [Settle true]
     || existsb attempts [Settle true] = false
   ∧ error_text_of "fullName"
       (First.render (First.cells (first_after [Settle true])))
     = Some (str "Full name is required"))
  ∧ (let es := enter_Al_M ++ [Change id_fullName (str "Alice")] in
     Second.run es Second.mount = Some (second_after es)
     ∧ fullName (Second.formData (Second.cells (second_after es)))
       = str "Alice"
     ∧ Second.validateForm (Second.formData (Second.cells (second_after es)))
       !! "fullName" = None
     ∧ error_text_of "fullName"
         (Second.render (Second.cells (second_after es)))
       = Some (str "Full name must be at least 3 characters")).
Proof.
  split.
  - split; [by vm_compute|]. split; [done|]. by vm_compute.
  - cbv zeta. split; [by vm_compute|]. split; [by vm_compute|].
    split; by vm_compute.
Qed.

(** ** The banner timer *)

Lemma first_commit_timer before after :
  timer_tracks 3000
    (First.orderSuccess (First.cells before)
     || First.orderFailure (First.cells before))
    (First.timer after) ->
  timer_tracks 3000
    (First.orderSuccess (First.cells (First.commit before after))
     || First.orderFailure (First.cells (First.commit before after)))
    (First.timer (First.commit before after)).
Proof.
  rewrite first_commit_cells.
  unfold First.commit, First.useEffect_banner. cbv zeta.
  assert (Hc : First.cells (First.useEffect_validate before after)
               = First.cells after)
    by (unfold First.useEffect_validate; by destruct (_ =? _)).
  assert (Ht : First.timer (First.useEffect_validate before after)
               = First.timer after)
    by (unfold First.useEffect_validate; by destruct (_ =? _)).
  case_bool_decide as Hdeps.
  - rewrite Hc in Hdeps. destruct Hdeps as [Hs Hf]. by rewrite Ht, Hs, Hf.
  - intros _. cbn. rewrite Hc. unfold timer_tracks.
    destruct (_ || _); cbn; [by eexists|done].
Qed.

Lemma second_commit_timer before after :
  timer_tracks 30000
    (Second.orderSuccess (Second.cells before)
     || Second.orderFailure (Second.cells before))
    (Second.timer after) ->
  timer_tracks 30000
    (Second.orderSuccess (Second.cells (Second.commit before after))
     || Second.orderFailure (Second.cells (Second.commit before after)))
    (Second.timer (Second.commit before after)).
Proof.
  rewrite second_commit_cells.
  unfold Second.commit, Second.useEffect_banner. cbv zeta.
  assert (Hc : Second.cells (Second.useEffect_validate before after)
               = Second.cells after)
    by (unfold Second.useEffect_validate; by destruct (_ =? _)).
  assert (Ht : Second.timer (Second.useEffect_validate before after)
               = Second.timer after)
    by (unfold Second.useEffect_validate; by destruct (_ =? _)).
  case_bool_decide as Hdeps.
  - rewrite Hc in Hdeps. destruct Hdeps as [Hs Hf]. by rewrite Ht, Hs, Hf.
  - intros _. cbn. rewrite Hc. unfold timer_tracks.
    destruct (_ || _); cbn; [by eexists|done].
Qed.

Lemma first_resumed_timer d random c :
  First.timer (First.handleSubmit_resumed d random c) = First.timer c.
Proof.
  unfold First.handleSubmit_resumed. cbv zeta.
  destruct (_ =? _); [|done]. by destruct random.
Qed.

Lemma second_resumed_timer d c :
  Second.timer (Second.handleSubmit_resumed d c) = Second.timer c.
Proof.
  unfold Second.handleSubmit_resumed. cbv zeta. by destruct (_ =? _).
Qed.

(** When the timer fires the banner and the message are cleared and no
    timer is left. *)
Lemma first_timeout_clears c c' :
  First.step Timeout c = Some c' ->
  First.orderSuccess (First.cells c') = false
  ∧ First.orderFailure (First.cells c') = false
  ∧ First.orderMessage (First.cells c') = []
  ∧ First.timer c' = None.
Proof.
  cbn [First.step]. destruct (First.timer c); [|done]. cbv zeta.
  intros [= <-]. rewrite first_commit_cells. split_and!; try done.
  unfold First.commit, First.useEffect_validate, First.useEffect_banner.
  cbn. rewrite Nat.eqb_refl. by case_bool_decide.
Qed.

Lemma second_timeout_clears c c' :
  Second.step Timeout c = Some c' ->
  Second.orderSuccess (Second.cells c') = false
  ∧ Second.orderFailure (Second.cells c') = false
  ∧ Second.orderMessage (Second.cells c') = []
  ∧ Second.timer c' = None.
Proof.
  cbn [Second.step]. destruct (Second.timer c); [|done]. cbv zeta.
  intros [= <-]. rewrite second_commit_cells. split_and!; try done.
  unfold Second.commit, Second.useEffect_validate, Second.useEffect_banner.
  cbn. rewrite Nat.eqb_refl. by case_bool_decide.
Qed.

(** While a banner is shown the timer with the fixed delay is pending, and
    no timer is pending otherwise. *)
Lemma first_banner_timer c :
  First.reachable c ->
  timer_tracks 3000
    (First.orderSuccess (First.cells c) || First.orderFailure (First.cells c))
    (First.timer c).
Proof.
  induction 1 as [|e c c' _ IH Hstep]; [done|].
  destruct e as [id value| |t| |random|];
    [| | | | |by apply first_timeout_clears in Hstep as (-> & -> & _ & ->)];
    cbn [First.step] in Hstep.
  - injection Hstep as <-. by apply first_commit_timer.
  - by injection Hstep as <-.
  - case_bool_decide; [|done]. injection Hstep as <-.
    apply first_commit_timer. unfold First.handleToppingChange. cbv zeta.
    by destruct (JS.includes _ _).
  - destruct (submitDisabled _); [done|]. injection Hstep as <-.
    by apply first_commit_timer.
  - destruct (First.pending c) as [|[d|d] rest]; [done| |];
      cbv zeta in Hstep; injection Hstep as <-; apply first_commit_timer.
    + done.
    + by rewrite first_resumed_timer.
Qed.

Lemma second_banner_timer c :
  Second.reachable c ->
  timer_tracks 30000
    (Second.orderSuccess (Second.cells c)
     || Second.orderFailure (Second.cells c))
    (Second.timer c).
Proof.
  induction 1 as [|e c c' _ IH Hstep]; [done|].
  destruct e as [id value| |t| |random|];
    [| | | | |by apply second_timeout_clears in Hstep as (-> & -> & _ & ->)];
    cbn [Second.step] in Hstep.
  - injection Hstep as <-. by apply second_commit_timer.
  - injection Hstep as <-. by apply second_commit_timer.
  - case_bool_decide; [|done]. injection Hstep as <-.
    apply second_commit_timer. unfold Second.handleToppingChange. cbv zeta.
    by destruct (JS.includes _ _).
  - destruct (submitDisabled _); [done|]. injection Hstep as <-.
    by apply second_commit_timer.
  - destruct (Second.pending c) as [|[d|d] rest]; [done| |];
      cbv zeta in Hstep; injection Hstep as <-; apply second_commit_timer.
    + done.
    + by rewrite second_resumed_timer.
Qed.

(** C8.  After a first accepted order the banner timer is pending.  A
    second order accepted before it fires stores a new message but leaves
    the two dependencies of the timer effect as they are, so the effect does
    not run again: the timer of the first order is still the pending one, no
    other timer has been created, and when it fires it clears the message
    of the second order. *)
Theorem C8_old_timer_clears_new_banner :
  ∃ c1 c2 c3,
    Second.run order_Alice Second.mount = Some c1
    ∧ successBanner (Second.render (Second.cells c1))
      = Some (str "Thank you for your order, Alice! Your small pizza with no toppings is on the way.")
    ∧ Second.timer c1 = Some (mkTimer 0 30000)
    ∧ Second.run order_Bob c1 = Some c2
    ∧ successBanner (Second.render (Second.cells c2))
      = Some (str "Thank you for your order, Bob! Your medium pizza with no toppings is on the way.")
    ∧ Second.timer c2 = Some (mkTimer 0 30000)
    ∧ Second.timers c2 = 1
    ∧ Second.step Timeout c2 = Some c3
    ∧ successBanner (Second.render (Second.cells c3)) = None
    ∧ Second.orderMessage (Second.cells c3) = [].
Proof.
  do 3 eexists.
  split; [by vm_compute|]. split; [by vm_compute|]. split; [by vm_compute|].
  split; [by vm_compute|]. split; [by vm_compute|]. split; [by vm_compute|].
  split; [by vm_compute|]. split; [by vm_compute|]. by vm_compute.
Qed.

(** The same in the first revision, where moreover a failure that follows a
    success does replace the timer: the dependencies of the effect change,
    its cleanup clears the old timer and a new one is set. *)
Lemma first_timer_replaced_on_failure_only :
  ∃ c1 c2 c2',
    First.run order_Alice First.mount = Some c1
    ∧ First.timer c1 = Some (mkTimer 0 3000)
    ∧ First.run order_Bob c1 = Some c2
    ∧ successBanner (First.render (First.cells c2))
      = Some (str "Thank you for your order, Bob! Your medium pizza with no toppings")
    ∧ First.timer c2 = Some (mkTimer 0 3000)
    ∧ First.run [ Change id_fullName (str "Bob"); Settle true;
                  Change id_size (str "M"); Settle true;
                  Submit; Settle false ] c1 = Some c2'
    ∧ failureBanner (First.render (First.cells c2'))
      = Some (str "Something went wrong")
    ∧ First.timer c2' = Some (mkTimer 1 3000).
Proof.
  do 3 eexists.
  split; [by vm_compute|]. split; [by vm_compute|]. split; [by vm_compute|].
  split; [by vm_compute|]. split; [by vm_compute|]. split; [by vm_compute|].
  split; by vm_compute.
Qed.

(** * Further properties of the validation *)

(** The error mapping is always the collection of the failures, also when
    there are none. *)
Lemma first_validateForm_collect d :
  First.validateForm d
  = collect (flat_map (fun f => Yup._validate (Yup.fschema f) (Yup.key f)
                                  (Yup.get f d)) First.pizzaSchema).
Proof.
  unfold First.validateForm, Yup.validate. by destruct (flat_map _ _).
Qed.

Lemma second_validateForm_collect d :
  Second.validateForm d
  = collect (flat_map (fun f => Yup._validate (Yup.fschema f) (Yup.key f)
                                  (Yup.get f d)) Second.pizzaSchema).
Proof.
  unfold Second.validateForm, Yup.validate. by destruct (flat_map _ _).
Qed.

(** The entry of a key is the message of the last failure with that path. *)
Lemma collect_lookup inner k :
  collect inner !! k
  = last (map Yup.errmessage (filter (fun e => Yup.path e = k) inner)).
Proof.
  induction inner as [|e inner IH] using rev_ind; [done|].
  rewrite collect_snoc, filter_app, map_app.
  rewrite lookup_insert, (filter_cons _ e []), filter_nil.
  destruct (decide (Yup.path e = k)); cbn.
  - by rewrite last_snoc.
  - by rewrite app_nil_r.
Qed.

Lemma runTests_path {T} (ts : list (Yup.Test T)) p v :
  Forall (fun e => Yup.path e = p) (Yup.runTests ts p v).
Proof.
  induction ts as [|t ts IH]; cbn; [done|].
  destruct (Yup.test t v); [done|]. by constructor.
Qed.

Lemma _validate_path {T} (s : Yup.Schema T) p v :
  Forall (fun e => Yup.path e = p) (Yup._validate s p v).
Proof.
  unfold Yup._validate. cbv zeta.
  destruct (Yup.runTests (Yup.internalTests s) p (Yup.cast s v)) eqn:E.
  - apply runTests_path.
  - rewrite <- E. apply runTests_path.
Qed.

Lemma filter_path_same (l : list Yup.ValidationError) p :
  Forall (fun e => Yup.path e = p) l ->
  filter (fun e => Yup.path e = p) l = l.
Proof.
  induction 1 as [|e l He _ IH]; [done|].
  rewrite filter_cons, decide_True by done. by rewrite IH.
Qed.

Lemma filter_path_other (l : list Yup.ValidationError) p k :
  p ≠ k ->
  Forall (fun e => Yup.path e = p) l ->
  filter (fun e => Yup.path e = k) l = [].
Proof.
  intros Hpk. induction 1 as [|e l He _ IH]; [done|].
  rewrite filter_cons, decide_False by congruence. done.
Qed.

(** The failures of the [fullName] schema, in the order of its tests. *)
Lemma fullName_failures (short long : string) p n :
  Yup._validate
    (Yup.string |> Yup.trim |> Yup.min 3 short |> Yup.max 20 long
                |> Yup.required "Full name is required") p n
  = (if 3 <=? length (JS.trim n) then [] else [Yup.mkError p (str short)])
    ++ (if length (JS.trim n) <=? 20 then [] else [Yup.mkError p (str long)])
    ++ (if length (JS.trim n) =? 0
        then [Yup.mkError p (str "Full name is required")] else []).
Proof.
  unfold Yup._validate. cbv zeta.
  change (Yup.cast _ n) with (JS.trim n).
  change (Yup.runTests (Yup.internalTests _) p (JS.trim n))
    with (@nil Yup.ValidationError).
  cbv iota.
  change (Yup.tests _)
    with [ Yup.mkTest "trim"
             (fun p => str p ++ str " must be a trimmed string")
             (fun v => bool_decide (v = JS.trim v));
           Yup.mkTest "min" (Yup.const short) (fun v => 3 <=? length v);
           Yup.mkTest "max" (Yup.const long) (fun v => length v <=? 20);
           Yup.mkTest "required" (Yup.const "Full name is required")
             (fun v : jsstring => negb (length v =? 0)) ].
  cbn [Yup.runTests Yup.test Yup.message].
  rewrite bool_decide_eq_true_2 by (by rewrite trim_idem).
  unfold Yup.const.
  by destruct (3 <=? _), (_ <=? 20), (_ =? 0).
Qed.

(** The failures of the [size] schema: the [oneOf] test runs before the
    ordinary tests and stops them when it fails. *)
Lemma size_failures (incorrect required : string) p (z : jsstring) :
  Yup._validate
    (Yup.string |> Yup.oneOf [str "S"; str "M"; str "L"] incorrect
                |> Yup.required required) p z
  = if bool_decide (z ∈ [str "S"; str "M"; str "L"]) then []
    else [Yup.mkError p (str incorrect)].
Proof.
  unfold Yup._validate. cbv zeta.
  change (Yup.cast _ z) with z.
  change (Yup.internalTests _)
    with [ Yup.mkTest "oneOf" (Yup.const incorrect)
             (fun v : jsstring =>
                bool_decide (v ∈ [str "S"; str "M"; str "L"])) ].
  change (Yup.tests _)
    with [ Yup.mkTest "required" (Yup.const required)
             (fun v : jsstring => negb (length v =? 0)) ].
  cbn [Yup.runTests Yup.test Yup.message].
  case_bool_decide as Hz; [|done].
  rewrite !elem_of_cons, elem_of_nil in Hz.
  by destruct Hz as [->|[->|[->|[]]]].
Qed.

Lemma toppings_failures_first p (ts : list jsstring) :
  Yup._validate
    (Yup.array |> Yup.required First.validationErrors.toppingsRequired) p ts
  = [].
Proof. done. Qed.

Lemma toppings_failures_second p (ts : list jsstring) :
  Yup._validate Yup.array p ts = [].
Proof. done. Qed.

Lemma first_lookup_fullName d :
  First.validateForm d !! "fullName"
  = fullName_entry (length (JS.trim (fullName d))).
Proof.
  rewrite first_validateForm_collect, collect_lookup.
  unfold First.pizzaSchema.
  cbn [flat_map Yup.fschema Yup.key Yup.get].
  rewrite !filter_app.
  rewrite (filter_path_same _ "fullName") by apply _validate_path.
  rewrite (filter_path_other _ "size" "fullName") by
    (done || apply _validate_path).
  rewrite app_nil_l, app_nil_r.
  rewrite fullName_failures. unfold fullName_entry.
  rewrite !Nat.ltb_antisym.
  destruct (3 <=? _) eqn:H3, (_ <=? 20) eqn:H20, (_ =? 0) eqn:H0;
    try reflexivity; exfalso;
    first [apply Nat.leb_le in H3|apply Nat.leb_gt in H3];
    first [apply Nat.leb_le in H20|apply Nat.leb_gt in H20];
    first [apply Nat.eqb_eq in H0|apply Nat.eqb_neq in H0]; lia.
Qed.

Lemma second_lookup_fullName d :
  Second.validateForm d !! "fullName"
  = fullName_entry (length (JS.trim (fullName d))).
Proof.
  rewrite second_validateForm_collect, collect_lookup.
  unfold Second.pizzaSchema.
  cbn [flat_map Yup.fschema Yup.key Yup.get].
  rewrite !filter_app.
  rewrite (filter_path_same _ "fullName") by apply _validate_path.
  rewrite (filter_path_other _ "size" "fullName") by
    (done || apply _validate_path).
  rewrite app_nil_l, app_nil_r.
  rewrite fullName_failures. unfold fullName_entry.
  rewrite !Nat.ltb_antisym.
  destruct (3 <=? _) eqn:H3, (_ <=? 20) eqn:H20, (_ =? 0) eqn:H0;
    try reflexivity; exfalso;
    first [apply Nat.leb_le in H3|apply Nat.leb_gt in H3];
    first [apply Nat.leb_le in H20|apply Nat.leb_gt in H20];
    first [apply Nat.eqb_eq in H0|apply Nat.eqb_neq in H0]; lia.
Qed.

(** X1.  The [fullName] entry of the error mapping is decided by the length
    of the trimmed name: "Full name is required" for an empty one (the
    too-short failure is overwritten), the too-short message below 3, the
    too-long message above 20, and no entry otherwise. *)
Theorem X1_fullName_entry (d : FormData) :
  First.validateForm d !! "fullName"
  = fullName_entry (length (JS.trim (fullName d)))
  ∧ Second.validateForm d !! "fullName"
    = fullName_entry (length (JS.trim (fullName d))).
Proof.
  split; [apply first_lookup_fullName|apply second_lookup_fullName].
Qed.

Lemma first_lookup_size d :
  First.validateForm d !! "size"
  = if bool_decide (size d ∈ [str "S"; str "M"; str "L"]) then None
    else Some (str "Size must be S or M or L").
Proof.
  rewrite first_validateForm_collect, collect_lookup.
  unfold First.pizzaSchema.
  cbn [flat_map Yup.fschema Yup.key Yup.get].
  rewrite !filter_app.
  rewrite (filter_path_other _ "fullName" "size") by
    (done || apply _validate_path).
  rewrite (filter_path_same _ "size") by apply _validate_path.
  rewrite app_nil_l, app_nil_r.
  rewrite size_failures. by case_bool_decide.
Qed.

Lemma second_lookup_size d :
  Second.validateForm d !! "size"
  = if bool_decide (size d ∈ [str "S"; str "M"; str "L"]) then None
    else Some (str "size must be S or M or L").
Proof.
  rewrite second_validateForm_collect, collect_lookup.
  unfold Second.pizzaSchema.
  cbn [flat_map Yup.fschema Yup.key Yup.get].
  rewrite !filter_app.
  rewrite (filter_path_other _ "fullName" "size") by
    (done || apply _validate_path).
  rewrite (filter_path_same _ "size") by apply _validate_path.
  rewrite app_nil_l, app_nil_r.
  rewrite size_failures. by case_bool_decide.
Qed.

(** X2.  The [size] entry is missing exactly when the size is "S", "M" or
    "L"; for every other size, the empty one included, it is the message of
    [sizeIncorrect] (capitalised in the first revision only), so the
    message given to [required] is never reported. *)
Theorem X2_size_entry (d : FormData) :
  First.validateForm d !! "size"
  = (if bool_decide (size d ∈ [str "S"; str "M"; str "L"]) then None
     else Some (str "Size must be S or M or L"))
  ∧ Second.validateForm d !! "size"
    = (if bool_decide (size d ∈ [str "S"; str "M"; str "L"]) then None
       else Some (str "size must be S or M or L")).
Proof.
  split; [apply first_lookup_size|apply second_lookup_size].
Qed.

Lemma first_lookup_other d k :
  k ≠ "fullName" -> k ≠ "size" -> First.validateForm d !! k = None.
Proof.
  intros Hn Hz.
  rewrite first_validateForm_collect, collect_lookup.
  unfold First.pizzaSchema.
  cbn [flat_map Yup.fschema Yup.key Yup.get].
  rewrite !filter_app.
  rewrite (filter_path_other _ "fullName" k) by
    (done || apply _validate_path).
  rewrite (filter_path_other _ "size" k) by
    (done || apply _validate_path).
  by rewrite toppings_failures_first.
Qed.

Lemma second_lookup_other d k :
  k ≠ "fullName" -> k ≠ "size" -> Second.validateForm d !! k = None.
Proof.
  intros Hn Hz.
  rewrite second_validateForm_collect, collect_lookup.
  unfold Second.pizzaSchema.
  cbn [flat_map Yup.fschema Yup.key Yup.get].
  rewrite !filter_app.
  rewrite (filter_path_other _ "fullName" k) by
    (done || apply _validate_path).
  rewrite (filter_path_other _ "size" k) by
    (done || apply _validate_path).
  by rewrite toppings_failures_second.
Qed.

(** X3.  The error mapping never has a key other than [fullName] and
    [size]; in particular [toppings] is never reported, whatever is
    selected, although the first revision passes a message for it. *)
Theorem X3_only_fullName_and_size (d : FormData) :
  (dom (First.validateForm d) ⊆ ({["fullName"; "size"]} : gset string)
   ∧ First.validateForm d !! "toppings" = None)
  ∧ (dom (Second.validateForm d) ⊆ ({["fullName"; "size"]} : gset string)
     ∧ Second.validateForm d !! "toppings" = None).
Proof.
  split; (split; [|by (apply first_lookup_other || apply second_lookup_other)]).
  - intros k [m Hm]%elem_of_dom.
    destruct (decide (k = "fullName")) as [->|Hn]; [set_solver|].
    destruct (decide (k = "size")) as [->|Hz]; [set_solver|].
    by rewrite first_lookup_other in Hm.
  - intros k [m Hm]%elem_of_dom.
    destruct (decide (k = "fullName")) as [->|Hn]; [set_solver|].
    destruct (decide (k = "size")) as [->|Hz]; [set_solver|].
    by rewrite second_lookup_other in Hm.
Qed.

Lemma first_validateForm_empty_iff d :
  First.validateForm d = ∅
  ↔ 3 <= length (JS.trim (fullName d)) <= 20
    ∧ size d ∈ [str "S"; str "M"; str "L"].
Proof.
  split; [apply first_validateForm_empty_inv|].
  intros [??]. by apply first_validateForm_valid.
Qed.

Lemma second_validateForm_empty_iff d :
  Second.validateForm d = ∅
  ↔ 3 <= length (JS.trim (fullName d)) <= 20
    ∧ size d ∈ [str "S"; str "M"; str "L"].
Proof.
  split; [apply second_validateForm_empty_inv|].
  intros [??]. by apply second_validateForm_valid.
Qed.

(** X4.  A form passes validation exactly when its trimmed full name has
    between 3 and 20 characters and its size is "S", "M" or "L"; the two
    revisions accept the same forms. *)
Theorem X4_valid_iff (d : FormData) :
  (First.validateForm d = ∅
   ↔ 3 <= length (JS.trim (fullName d)) <= 20
     ∧ size d ∈ [str "S"; str "M"; str "L"])
  ∧ (Second.validateForm d = ∅
     ↔ 3 <= length (JS.trim (fullName d)) <= 20
       ∧ size d ∈ [str "S"; str "M"; str "L"]).
Proof.
  split; [apply first_validateForm_empty_iff|apply second_validateForm_empty_iff].
Qed.

(** * Further properties of the component *)

Lemma invalid_false_iff V d : invalid V d = false ↔ V d = ∅.
Proof.
  split; [|apply invalid_false].
  destruct (decide (V d = ∅)) as [|Hd]; [done|].
  by rewrite invalid_true.
Qed.

(** X5.  Once nothing is parked, no submission is in flight, the error
    mapping is the one of the form on display, and the submit control is
    enabled exactly when that form is valid. *)
Theorem X5_settled_state :
  (∀ c : First.Component,
     First.reachable c -> First.pending c = [] ->
     let s := First.cells c in
     First.isSubmitting s = false
     ∧ First.errors s = First.validateForm (First.formData s)
     ∧ (submitDisabled (First.render s) = false
        ↔ 3 <= length (JS.trim (fullName (First.formData s))) <= 20
          ∧ size (First.formData s) ∈ [str "S"; str "M"; str "L"]))
  ∧ (∀ c : Second.Component,
       Second.reachable c -> Second.pending c = [] ->
       let s := Second.cells c in
       Second.isSubmitting s = false
       ∧ Second.errors s = Second.validateForm (Second.formData s)
       ∧ (submitDisabled (Second.render s) = false
          ↔ 3 <= length (JS.trim (fullName (Second.formData s))) <= 20
            ∧ size (Second.formData s) ∈ [str "S"; str "M"; str "L"])).
Proof.
  split.
  - intros c Hr Hq s. subst s.
    destruct (first_quiescent c Hr Hq) as [He Hd].
    apply first_reachable_inv in Hr as (_ & _ & H3 & _).
    rewrite Hq in H3. cbn in H3.
    destruct (First.isSubmitting (First.cells c)) eqn:Hs; [done|].
    split_and!; [done|done|].
    cbn. rewrite Hs, orb_false_r, Hd, invalid_false_iff.
    apply first_validateForm_empty_iff.
  - intros c Hr Hq s. subst s.
    destruct (second_quiescent c Hr Hq) as [He Hd].
    apply second_reachable_inv in Hr as (_ & _ & H3 & _).
    rewrite Hq in H3. cbn in H3.
    destruct (Second.isSubmitting (Second.cells c)) eqn:Hs; [done|].
    split_and!; [done|done|].
    cbn. rewrite Hs, orb_false_r, Hd, invalid_false_iff.
    apply second_validateForm_empty_iff.
Qed.

Lemma X5_witness :
  ∃ c, First.run enter_Al_M First.mount = Some c
     ∧ First.pending c = []
     ∧ First.isSubmitting (First.cells c) = false
     ∧ First.errors (First.cells c)
       = First.validateForm (First.formData (First.cells c))
     ∧ (submitDisabled (First.render (First.cells c)) = false
        ↔ 3 <= length (JS.trim (fullName (First.formData (First.cells c)))) <= 20
          ∧ size (First.formData (First.cells c)) ∈ [str "S"; str "M"; str "L"]).
Proof.
  eexists. split; [by vm_compute|].
  assert (Hr : First.reachable
                 (default First.mount (First.run enter_Al_M First.mount))).
  { apply (first_run_reachable enter_Al_M First.mount);
      [apply First.reachable_mount|by vm_compute]. }
  assert (Hq : First.pending
                 (default First.mount (First.run enter_Al_M First.mount)) = [])
    by (by vm_compute).
  split; [exact Hq|].
  exact (proj1 X5_settled_state _ Hr Hq).
Defined.


(** ** The selected toppings *)

Lemma toppings_spread fd id value : toppings (spread fd id value) = toppings fd.
Proof. by destruct id. Qed.

Lemma first_resumed_formData d random c :
  First.formData (First.cells (First.handleSubmit_resumed d random c))
  = if bool_decide (First.validateForm d = ∅) && random
    then mkFormData [] [] []
    else First.formData (First.cells c).
Proof.
  unfold First.handleSubmit_resumed. cbv zeta. rewrite keys_length_eqb.
  case_bool_decide; [|done]. by destruct random.
Qed.

Lemma second_resumed_formData d c :
  Second.formData (Second.cells (Second.handleSubmit_resumed d c))
  = if bool_decide (Second.validateForm d = ∅)
    then mkFormData [] [] []
    else Second.formData (Second.cells c).
Proof.
  unfold Second.handleSubmit_resumed. cbv zeta. rewrite keys_length_eqb.
  by case_bool_decide.
Qed.

(** What one step can do to the list of toppings: leave it, empty it, or
    toggle an id of the catalogue. *)
Lemma first_step_toppings e c c' :
  First.step e c = Some c' ->
  let ts c := toppings (First.formData (First.cells c)) in
  ts c' = ts c ∨ ts c' = []
  ∨ ∃ t, t ∈ topping_ids ∧ ts c' = toggled t (ts c).
Proof.
  intros Hstep ts. subst ts. cbv beta.
  destruct e as [id value| |t| |random|]; cbn [First.step] in Hstep.
  - injection Hstep as <-. rewrite first_commit_cells. left.
    unfold First.handleChange. cbn. apply toppings_spread.
  - injection Hstep as <-. by left.
  - case_bool_decide as Ht; [|done]. injection Hstep as <-.
    rewrite first_commit_cells. right. right. exists t. split; [done|].
    apply first_handleToppingChange_toppings.
  - destruct (submitDisabled _); [done|]. injection Hstep as <-.
    rewrite first_commit_cells. by left.
  - destruct (First.pending c) as [|[d|d] rest]; [done| |];
      cbv zeta in Hstep; injection Hstep as <-; rewrite first_commit_cells.
    + by left.
    + rewrite first_resumed_formData. destruct (_ && _); [by right; left|by left].
  - destruct (First.timer c); [|done]. cbv zeta in Hstep.
    injection Hstep as <-. rewrite first_commit_cells. by left.
Qed.

Lemma second_step_toppings e c c' :
  Second.step e c = Some c' ->
  let ts c := toppings (Second.formData (Second.cells c)) in
  ts c' = ts c ∨ ts c' = []
  ∨ ∃ t, t ∈ topping_ids ∧ ts c' = toggled t (ts c).
Proof.
  intros Hstep ts. subst ts. cbv beta.
  destruct e as [id value| |t| |random|]; cbn [Second.step] in Hstep.
  - injection Hstep as <-. rewrite second_commit_cells. left.
    unfold Second.handleChange. cbn. apply toppings_spread.
  - injection Hstep as <-. rewrite second_commit_cells. by left.
  - case_bool_decide as Ht; [|done]. injection Hstep as <-.
    rewrite second_commit_cells. right. right. exists t. split; [done|].
    apply second_handleToppingChange_toppings.
  - destruct (submitDisabled _); [done|]. injection Hstep as <-.
    rewrite second_commit_cells. by left.
  - destruct (Second.pending c) as [|[d|d] rest]; [done| |];
      cbv zeta in Hstep; injection Hstep as <-; rewrite second_commit_cells.
    + by left.
    + rewrite second_resumed_formData.
      case_bool_decide; [by right; left|by left].
  - destruct (Second.timer c); [|done]. cbv zeta in Hstep.
    injection Hstep as <-. rewrite second_commit_cells. by left.
Qed.

Lemma toppings_inv_step (ts ts' : list jsstring) :
  (ts' = ts ∨ ts' = [] ∨ ∃ t, t ∈ topping_ids ∧ ts' = toggled t ts) ->
  NoDup ts ∧ ts ⊆ topping_ids ->
  NoDup ts' ∧ ts' ⊆ topping_ids.
Proof.
  intros [->|[->|(t & Ht & ->)]] [Hnd Hsub]; [done| |].
  - split; [constructor|]. by intros x Hx%elem_of_nil.
  - split; [by apply toggled_NoDup|].
    intros x [[-> _]|[_ Hx]]%toggled_elem_of; auto.
Qed.

Lemma NoDup_topping_ids : NoDup topping_ids.
Proof. apply (bool_decide_unpack _). by vm_compute. Qed.

Lemma length_filter_map {A} (f : A -> bool) (l : list A) :
  length (filter (fun b => b = true) (map f l))
  = length (filter (fun x => f x = true) l).
Proof.
  induction l as [|x l IH]; [done|]. cbn [map].
  rewrite !filter_cons. destruct (decide (f x = true)); cbn; by rewrite IH.
Qed.

Lemma length_filter_fst (P : jsstring -> bool) (l : list (jsstring * jsstring)) :
  length (filter (fun x => P (fst x) = true) l)
  = length (filter (fun i => P i = true) (map fst l)).
Proof.
  induction l as [|x l IH]; [done|]. cbn [map].
  rewrite !filter_cons. destruct (decide (P (fst x) = true)); cbn; by rewrite IH.
Qed.

(** In a view, as many checkboxes are ticked as the form has toppings,
    when these are distinct ids of the catalogue. *)
Lemma ticked_length (ts : list jsstring) :
  NoDup ts -> ts ⊆ topping_ids ->
  length (filter (fun b => b = true)
            (map (fun topping : jsstring * jsstring =>
                    JS.includes ts (fst topping)) toppingsData))
  = length ts.
Proof.
  intros Hnd Hsub.
  rewrite (length_filter_map (fun topping => JS.includes ts (fst topping))).
  rewrite (length_filter_fst (JS.includes ts)).
  fold topping_ids. apply Permutation_length, NoDup_Permutation.
  - apply NoDup_filter, NoDup_topping_ids.
  - done.
  - intros x. rewrite list_elem_of_filter. unfold JS.includes.
    rewrite bool_decide_eq_true. split; [tauto|]. intros Hx. split; auto.
Qed.

Lemma first_toppings_inv c :
  First.reachable c ->
  NoDup (toppings (First.formData (First.cells c)))
  ∧ toppings (First.formData (First.cells c)) ⊆ topping_ids.
Proof.
  induction 1 as [|e c c' _ IH Hstep].
  - split; [constructor|]. by intros x Hx%elem_of_nil.
  - eapply toppings_inv_step; [|exact IH].
    exact (first_step_toppings e c c' Hstep).
Qed.

Lemma second_toppings_inv c :
  Second.reachable c ->
  NoDup (toppings (Second.formData (Second.cells c)))
  ∧ toppings (Second.formData (Second.cells c)) ⊆ topping_ids.
Proof.
  induction 1 as [|e c c' _ IH Hstep].
  - split; [constructor|]. by intros x Hx%elem_of_nil.
  - eapply toppings_inv_step; [|exact IH].
    exact (second_step_toppings e c c' Hstep).
Qed.

Lemma toppings_bounded (ts : list jsstring) :
  NoDup ts -> ts ⊆ topping_ids -> length ts <= 5.
Proof.
  intros Hnd Hsub.
  change 5 with (length topping_ids).
  apply submseteq_length, NoDup_submseteq; [done|]. apply Hsub.
Qed.

(** X6.  In every reachable state the toppings of the form are distinct ids
    of the catalogue, so there are at most five of them, and the form shows
    as many ticked checkboxes as it has toppings. *)
Theorem X6_toppings_are_distinct_catalogue_ids :
  (∀ c : First.Component,
     First.reachable c ->
     let ts := toppings (First.formData (First.cells c)) in
     NoDup ts ∧ ts ⊆ topping_ids ∧ length ts <= 5
     ∧ ticked (First.render (First.cells c)) = length ts)
  ∧ (∀ c : Second.Component,
       Second.reachable c ->
       let ts := toppings (Second.formData (Second.cells c)) in
       NoDup ts ∧ ts ⊆ topping_ids ∧ length ts <= 5
       ∧ ticked (Second.render (Second.cells c)) = length ts).
Proof.
  split.
  - intros c [Hnd Hsub]%first_toppings_inv ts. subst ts.
    split_and!; [done|done|by apply toppings_bounded|].
    by apply ticked_length.
  - intros c [Hnd Hsub]%second_toppings_inv ts. subst ts.
    split_and!; [done|done|by apply toppings_bounded|].
    by apply ticked_length.
Qed.

Lemma X6_witness :
  ∃ c, First.run [ToppingChange (str "3"); ToppingChange (str "1")] First.mount
       = Some c
     ∧ NoDup (toppings (First.formData (First.cells c)))
     ∧ toppings (First.formData (First.cells c)) ⊆ topping_ids
     ∧ length (toppings (First.formData (First.cells c))) <= 5
     ∧ ticked (First.render (First.cells c))
       = length (toppings (First.formData (First.cells c))).
Proof.
  eexists. split; [by vm_compute|].
  refine (proj1 X6_toppings_are_distinct_catalogue_ids _ _).
  apply (first_run_reachable
           [ToppingChange (str "3"); ToppingChange (str "1")] First.mount);
    [apply First.reachable_mount|by vm_compute].
Defined.

(** ** What gets submitted *)

Lemma first_commit_console before after :
  First.console (First.commit before after) = First.console after.
Proof.
  unfold First.commit, First.useEffect_validate, First.useEffect_banner.
  cbv zeta. by repeat case_match.
Qed.

Lemma second_commit_console before after :
  Second.console (Second.commit before after) = Second.console after.
Proof.
  unfold Second.commit, Second.useEffect_validate, Second.useEffect_banner.
  cbv zeta. by repeat case_match.
Qed.

Lemma first_submitted_valid c :
  First.reachable c ->
  ∀ d, LogSubmitted d ∈ First.console c -> First.validateForm d = ∅.
Proof.
  induction 1 as [|e c c' _ IH Hstep]; [by intros d Hd%elem_of_nil|].
  intros d0.
  destruct e as [id value| |t| |random|]; cbn [First.step] in Hstep.
  - injection Hstep as <-. rewrite first_commit_console.
    unfold First.handleChange. cbn.
    rewrite elem_of_app, list_elem_of_singleton. intros [?|?]; [auto|done].
  - injection Hstep as <-. auto.
  - case_bool_decide; [|done]. injection Hstep as <-.
    rewrite first_commit_console. unfold First.handleToppingChange.
    cbv zeta. destruct (JS.includes _ _); apply IH.
  - destruct (submitDisabled _); [done|]. injection Hstep as <-.
    rewrite first_commit_console. apply IH.
  - destruct (First.pending c) as [|[d|d] rest]; [done| |];
      cbv zeta in Hstep; injection Hstep as <-;
      rewrite first_commit_console.
    + apply IH.
    + rewrite first_resumed_console. cbn.
      rewrite elem_of_app. intros [?|Hd]; [auto|].
      case_bool_decide; [|by apply elem_of_nil in Hd].
      apply list_elem_of_singleton in Hd. by injection Hd as ->.
  - destruct (First.timer c); [|done]. cbv zeta in Hstep.
    injection Hstep as <-. rewrite first_commit_console. apply IH.
Qed.

Lemma second_submitted_valid c :
  Second.reachable c ->
  ∀ d, LogSubmitted d ∈ Second.console c -> Second.validateForm d = ∅.
Proof.
  induction 1 as [|e c c' _ IH Hstep]; [by intros d Hd%elem_of_nil|].
  intros d0.
  destruct e as [id value| |t| |random|]; cbn [Second.step] in Hstep.
  - injection Hstep as <-. rewrite second_commit_console.
    unfold Second.handleChange. cbn.
    rewrite elem_of_app, list_elem_of_singleton. intros [?|?]; [auto|done].
  - injection Hstep as <-. rewrite second_commit_console. apply IH.
  - case_bool_decide; [|done]. injection Hstep as <-.
    rewrite second_commit_console. unfold Second.handleToppingChange.
    cbv zeta. destruct (JS.includes _ _); apply IH.
  - destruct (submitDisabled _); [done|]. injection Hstep as <-.
    rewrite second_commit_console. apply IH.
  - destruct (Second.pending c) as [|[d|d] rest]; [done| |];
      cbv zeta in Hstep; injection Hstep as <-;
      rewrite second_commit_console.
    + apply IH.
    + rewrite second_resumed_console. cbn.
      rewrite elem_of_app. intros [?|Hd]; [auto|].
      case_bool_decide; [|by apply elem_of_nil in Hd].
      apply list_elem_of_singleton in Hd. by injection Hd as ->.
  - destruct (Second.timer c); [|done]. cbv zeta in Hstep.
    injection Hstep as <-. rewrite second_commit_console. apply IH.
Qed.

(** X7.  Whatever the order of events, every form that the component
    reports as submitted on the console is one that passes validation: a
    trimmed full name of 3 to 20 characters and a size "S", "M" or "L". *)
Theorem X7_only_valid_forms_are_submitted :
  (∀ (c : First.Component) (d : FormData),
     First.reachable c -> LogSubmitted d ∈ First.console c ->
     3 <= length (JS.trim (fullName d)) <= 20
     ∧ size d ∈ [str "S"; str "M"; str "L"])
  ∧ (∀ (c : Second.Component) (d : FormData),
       Second.reachable c -> LogSubmitted d ∈ Second.console c ->
       3 <= length (JS.trim (fullName d)) <= 20
       ∧ size d ∈ [str "S"; str "M"; str "L"]).
Proof.
  split; intros c d Hr Hd.
  - apply first_validateForm_empty_iff. by eapply first_submitted_valid.
  - apply second_validateForm_empty_iff. by eapply second_submitted_valid.
Qed.

Lemma X7_witness :
  ∃ c d, First.run order_Alice First.mount = Some c
       ∧ LogSubmitted d ∈ First.console c
       ∧ 3 <= length (JS.trim (fullName d)) <= 20
       ∧ size d ∈ [str "S"; str "M"; str "L"].
Proof.
  eexists. exists (mkFormData (str "Alice") (str "S") []).
  split; [by vm_compute|].
  assert (Hr : First.reachable
                 (default First.mount (First.run order_Alice First.mount))).
  { apply (first_run_reachable order_Alice First.mount);
      [apply First.reachable_mount|by vm_compute]. }
  assert (Hd : LogSubmitted (mkFormData (str "Alice") (str "S") [])
               ∈ First.console
                   (default First.mount (First.run order_Alice First.mount))).
  { vm_compute. do 2 apply list_elem_of_further. apply list_elem_of_here. }
  split; [exact Hd|].
  exact (proj1 X7_only_valid_forms_are_submitted _ _ Hr Hd).
Defined.

(** ** The banners *)

Lemma first_banner_inv c :
  First.reachable c ->
  banner_consistent (First.orderSuccess (First.cells c))
    (First.orderFailure (First.cells c)) (First.orderMessage (First.cells c)).
Proof.
  induction 1 as [|e c c' _ IH Hstep]; [by split_and!|].
  destruct e as [id value| |t| |random|]; cbn [First.step] in Hstep.
  - injection Hstep as <-. by rewrite first_commit_cells.
  - by injection Hstep as <-.
  - case_bool_decide; [|done]. injection Hstep as <-.
    rewrite first_commit_cells. unfold First.handleToppingChange.
    cbv zeta. by destruct (JS.includes _ _).
  - destruct (submitDisabled _); [done|]. injection Hstep as <-.
    by rewrite first_commit_cells.
  - destruct (First.pending c) as [|[d|d] rest]; [done| |];
      cbv zeta in Hstep; injection Hstep as <-; rewrite first_commit_cells.
    + done.
    + destruct (decide (First.validateForm d = ∅)) as [Hd|Hd].
      * destruct random.
        -- destruct (resumed_success d Hd) as (w & _ & H1 & _).
           destruct (H1 (First.setPending rest c)) as (_ & -> & -> & _ & ->).
           split_and!; [done|done|]. intros _. by eexists.
        -- rewrite first_resumed_failure by done. by split_and!.
      * by rewrite first_resumed_blocked.
  - destruct (First.timer c); [|done]. cbv zeta in Hstep.
    injection Hstep as <-. rewrite first_commit_cells. by split_and!.
Qed.

Lemma second_banner_inv c :
  Second.reachable c ->
  Second.orderFailure (Second.cells c) = false
  ∧ banner_consistent (Second.orderSuccess (Second.cells c))
      (Second.orderFailure (Second.cells c))
      (Second.orderMessage (Second.cells c)).
Proof.
  induction 1 as [|e c c' _ IH Hstep]; [by split_and!|].
  destruct e as [id value| |t| |random|]; cbn [Second.step] in Hstep.
  - injection Hstep as <-. by rewrite second_commit_cells.
  - injection Hstep as <-. by rewrite second_commit_cells.
  - case_bool_decide; [|done]. injection Hstep as <-.
    rewrite second_commit_cells. unfold Second.handleToppingChange.
    cbv zeta. by destruct (JS.includes _ _).
  - destruct (submitDisabled _); [done|]. injection Hstep as <-.
    by rewrite second_commit_cells.
  - destruct (Second.pending c) as [|[d|d] rest]; [done| |];
      cbv zeta in Hstep; injection Hstep as <-; rewrite second_commit_cells.
    + done.
    + destruct (decide (Second.validateForm d = ∅)) as [Hd|Hd].
      * assert (Hd1 : First.validateForm d = ∅)
          by by apply validateForm_empty_agree.
        destruct (resumed_success d Hd1) as (w & _ & _ & H2).
        destruct (H2 (Second.setPending rest c))
          as (_ & _ & _ & -> & -> & _ & ->).
        split; [done|]. unfold banner_consistent.
        split_and!; [done|done|]. intros _. by eexists.
      * by rewrite second_resumed_blocked.
  - destruct (Second.timer c); [|done]. cbv zeta in Hstep.
    injection Hstep as <-. rewrite second_commit_cells.
    destruct IH as [IH _]. by split_and!.
Qed.

(** X8.  In every reachable state the two banners exclude each other, the
    stored message is empty unless the success banner is shown, and then it
    opens with "Thank you for your order, ".  The second revision never
    shows the failure banner at all. *)
Theorem X8_banners_are_consistent :
  (∀ c : First.Component,
     First.reachable c ->
     let v := First.render (First.cells c) in
     (successBanner v = None ∨ failureBanner v = None)
     ∧ banner_consistent (First.orderSuccess (First.cells c))
         (First.orderFailure (First.cells c))
         (First.orderMessage (First.cells c)))
  ∧ (∀ c : Second.Component,
       Second.reachable c ->
       failureBanner (Second.render (Second.cells c)) = None
       ∧ banner_consistent (Second.orderSuccess (Second.cells c))
           (Second.orderFailure (Second.cells c))
           (Second.orderMessage (Second.cells c))).
Proof.
  split.
  - intros c Hb%first_banner_inv v. subst v. split; [|done]. cbn.
    destruct Hb as (Hx & _).
    destruct (First.orderSuccess _); [right; by rewrite Hx|by left].
  - intros c [Hf Hb]%second_banner_inv. split; [|done]. cbn. by rewrite Hf.
Qed.

Lemma X8_witness :
  ∃ c, First.run order_Alice First.mount = Some c
     ∧ (successBanner (First.render (First.cells c)) = None
        ∨ failureBanner (First.render (First.cells c)) = None)
     ∧ banner_consistent (First.orderSuccess (First.cells c))
         (First.orderFailure (First.cells c))
         (First.orderMessage (First.cells c)).
Proof.
  eexists. split; [by vm_compute|].
  refine (proj1 X8_banners_are_consistent _ _).
  apply (first_run_reachable order_Alice First.mount);
    [apply First.reachable_mount|by vm_compute].
Defined.

(** X9.  In every reachable state a timer is pending exactly while a banner
    is shown, and the pending timer was set with the delay of the revision:
    3000 ms in the first, 30000 ms in the second. *)
Theorem X9_timer_pending_while_banner_shown :
  (∀ c : First.Component,
     First.reachable c ->
     let v := First.render (First.cells c) in
     (is_Some (First.timer c)
      ↔ is_Some (successBanner v) ∨ is_Some (failureBanner v))
     ∧ (∀ t, First.timer c = Some t -> delay t = 3000%N))
  ∧ (∀ c : Second.Component,
       Second.reachable c ->
       let v := Second.render (Second.cells c) in
       (is_Some (Second.timer c)
        ↔ is_Some (successBanner v) ∨ is_Some (failureBanner v))
       ∧ (∀ t, Second.timer c = Some t -> delay t = 30000%N)).
Proof.
  split.
  - intros c Ht%first_banner_timer v. subst v. cbn.
    unfold timer_tracks in Ht.
    destruct (First.orderSuccess _), (First.orderFailure _); cbn in *.
    1-3: destruct Ht as [k ->]; split;
      [split; [intros _; (by left) || (by right)|by intros _]
      |by intros t [= <-]].
    rewrite Ht. split; [|done].
    split; [by intros [? ?]|by intros [[? ?]|[? ?]]].
  - intros c Ht%second_banner_timer v. subst v. cbn.
    unfold timer_tracks in Ht.
    destruct (Second.orderSuccess _), (Second.orderFailure _); cbn in *.
    1-3: destruct Ht as [k ->]; split;
      [split; [intros _; (by left) || (by right)|by intros _]
      |by intros t [= <-]].
    rewrite Ht. split; [|done].
    split; [by intros [? ?]|by intros [[? ?]|[? ?]]].
Qed.

Lemma X9_witness :
  ∃ c, Second.run order_Alice Second.mount = Some c
     ∧ (is_Some (Second.timer c)
        ↔ is_Some (successBanner (Second.render (Second.cells c)))
          ∨ is_Some (failureBanner (Second.render (Second.cells c))))
     ∧ (∀ t, Second.timer c = Some t -> delay t = 30000%N).
Proof.
  eexists. split; [by vm_compute|].
  refine (proj2 X9_timer_pending_while_banner_shown _ _).
  apply (second_run_reachable order_Alice Second.mount);
    [apply Second.reachable_mount|by vm_compute].
Defined.

(** X10.  When the banner timer fires, both banners and the stored message
    are cleared and no timer is left; the form data, the error mapping, the
    disabled and in-flight flags, the parked continuations and the console
    (and, in the second revision, the touched and submit-attempted flags)
    are left as they were. *)
Theorem X10_timeout_only_clears_the_banner :
  (∀ c c' : First.Component,
     First.step Timeout c = Some c' ->
     let s := First.cells c in
     let s' := First.cells c' in
     successBanner (First.render s') = None
     ∧ failureBanner (First.render s') = None
     ∧ First.orderMessage s' = []
     ∧ First.timer c' = None
     ∧ First.formData s' = First.formData s
     ∧ First.errors s' = First.errors s
     ∧ First.isSubmitDisabled s' = First.isSubmitDisabled s
     ∧ First.isSubmitting s' = First.isSubmitting s
     ∧ First.pending c' = First.pending c
     ∧ First.console c' = First.console c)
  ∧ (∀ c c' : Second.Component,
       Second.step Timeout c = Some c' ->
       let s := Second.cells c in
       let s' := Second.cells c' in
       successBanner (Second.render s') = None
       ∧ failureBanner (Second.render s') = None
       ∧ Second.orderMessage s' = []
       ∧ Second.timer c' = None
       ∧ Second.formData s' = Second.formData s
       ∧ Second.errors s' = Second.errors s
       ∧ Second.isSubmitDisabled s' = Second.isSubmitDisabled s
       ∧ Second.isSubmitting s' = Second.isSubmitting s
       ∧ Second.touched s' = Second.touched s
       ∧ Second.hasAttemptedSubmit s' = Second.hasAttemptedSubmit s
       ∧ Second.pending c' = Second.pending c
       ∧ Second.console c' = Second.console c).
Proof.
  split.
  - intros c c' Hstep s s'. subst s s'.
    destruct (first_timeout_clears c c' Hstep) as (Hs & Hf & Hm & Ht).
    cbn [First.step] in Hstep. destruct (First.timer c); [|done].
    cbv zeta in Hstep. injection Hstep as <-.
    rewrite first_commit_cells in *.
    rewrite first_commit_pending, first_commit_console.
    cbn. rewrite Nat.eqb_refl, app_nil_r. by split_and!.
  - intros c c' Hstep s s'. subst s s'.
    destruct (second_timeout_clears c c' Hstep) as (Hs & Hf & Hm & Ht).
    cbn [Second.step] in Hstep. destruct (Second.timer c); [|done].
    cbv zeta in Hstep. injection Hstep as <-.
    rewrite second_commit_cells in *.
    rewrite second_commit_pending, second_commit_console.
    cbn. rewrite Nat.eqb_refl, app_nil_r. by split_and!.
Qed.

Lemma X10_witness :
  ∃ c c', First.run order_Alice First.mount = Some c
        ∧ First.step Timeout c = Some c'
        ∧ successBanner (First.render (First.cells c')) = None
        ∧ failureBanner (First.render (First.cells c')) = None
        ∧ First.orderMessage (First.cells c') = []
        ∧ First.timer c' = None
        ∧ First.formData (First.cells c') = First.formData (First.cells c)
        ∧ First.errors (First.cells c') = First.errors (First.cells c)
        ∧ First.isSubmitDisabled (First.cells c')
          = First.isSubmitDisabled (First.cells c)
        ∧ First.isSubmitting (First.cells c')
          = First.isSubmitting (First.cells c)
        ∧ First.pending c' = First.pending c
        ∧ First.console c' = First.console c.
Proof.
  do 2 eexists. split; [by vm_compute|].
  assert (Hstep :
            First.step Timeout
              (default First.mount (First.run order_Alice First.mount))
            = Some (default First.mount
                      (First.run (order_Alice ++ [Timeout]) First.mount)))
    by (by vm_compute).
  split; [exact Hstep|].
  exact (proj1 X10_timeout_only_clears_the_banner _ _ Hstep).
Defined.

(** ** The error mapping in the state *)

Lemma first_errors_inv c :
  First.reachable c ->
  First.errors (First.cells c) = ∅
  ∨ ∃ d, First.errors (First.cells c) = First.validateForm d.
Proof.
  induction 1 as [|e c c' _ IH Hstep]; [by left|].
  destruct e as [id value| |t| |random|]; cbn [First.step] in Hstep.
  - injection Hstep as <-. by rewrite first_commit_cells.
  - by injection Hstep as <-.
  - case_bool_decide; [|done]. injection Hstep as <-.
    rewrite first_commit_cells. unfold First.handleToppingChange.
    cbv zeta. by destruct (JS.includes _ _).
  - destruct (submitDisabled _); [done|]. injection Hstep as <-.
    by rewrite first_commit_cells.
  - destruct (First.pending c) as [|[d|d] rest]; [done| |];
      cbv zeta in Hstep; injection Hstep as <-; rewrite first_commit_cells;
      right; exists d.
    + done.
    + unfold First.handleSubmit_resumed. cbv zeta.
      destruct (_ =? _); [|done]. by destruct random.
  - destruct (First.timer c); [|done]. cbv zeta in Hstep.
    injection Hstep as <-. by rewrite first_commit_cells.
Qed.

Lemma second_errors_inv c :
  Second.reachable c ->
  Second.errors (Second.cells c) = ∅
  ∨ ∃ d, Second.errors (Second.cells c) = Second.validateForm d.
Proof.
  induction 1 as [|e c c' _ IH Hstep]; [by left|].
  destruct e as [id value| |t| |random|]; cbn [Second.step] in Hstep.
  - injection Hstep as <-. by rewrite second_commit_cells.
  - injection Hstep as <-. by rewrite second_commit_cells.
  - case_bool_decide; [|done]. injection Hstep as <-.
    rewrite second_commit_cells. unfold Second.handleToppingChange.
    cbv zeta. by destruct (JS.includes _ _).
  - destruct (submitDisabled _); [done|]. injection Hstep as <-.
    by rewrite second_commit_cells.
  - destruct (Second.pending c) as [|[d|d] rest]; [done| |];
      cbv zeta in Hstep; injection Hstep as <-; rewrite second_commit_cells.
    + right. by exists d.
    + unfold Second.handleSubmit_resumed. cbv zeta.
      destruct (_ =? _); [by left|right; by exists d].
  - destruct (Second.timer c); [|done]. cbv zeta in Hstep.
    injection Hstep as <-. by rewrite second_commit_cells.
Qed.

Lemma fullName_entry_cases n m :
  fullName_entry n = Some m ->
  m ∈ [ str "Full name is required";
        str "Full name must be at least 3 characters";
        str "Full name must be at most 20 characters" ].
Proof.
  unfold fullName_entry.
  destruct (n =? 0); [intros [= <-]; apply list_elem_of_here|].
  destruct (n <? 3);
    [intros [= <-]; apply list_elem_of_further, list_elem_of_here|].
  destruct (20 <? n); [|done].
  intros [= <-]. do 2 apply list_elem_of_further. apply list_elem_of_here.
Qed.

(** X11.  In every reachable state the error mapping held by the component
    has no entry for the toppings, so the error text of the toppings is
    never rendered, and every error text that is rendered is one of the
    messages of the schema for that field. *)
Theorem X11_rendered_error_texts :
  (∀ c : First.Component,
     First.reachable c ->
     let v := First.render (First.cells c) in
     toppingsError v = None
     ∧ (∀ m, fullNameError v = Some m ->
             m ∈ [ str "Full name is required";
                   str "Full name must be at least 3 characters";
                   str "Full name must be at most 20 characters" ])
     ∧ (∀ m, sizeError v = Some m -> m = str "Size must be S or M or L"))
  ∧ (∀ c : Second.Component,
       Second.reachable c ->
       let v := Second.render (Second.cells c) in
       toppingsError v = None
       ∧ (∀ m, fullNameError v = Some m ->
               m ∈ [ str "Full name is required";
                   str "Full name must be at least 3 characters";
                   str "Full name must be at most 20 characters" ])
       ∧ (∀ m, sizeError v = Some m -> m = str "size must be S or M or L")).
Proof.
  split.
  - intros c [He|[d He]]%first_errors_inv v; subst v; cbn; rewrite He.
    + by rewrite !lookup_empty.
    + rewrite first_lookup_other, first_lookup_fullName, first_lookup_size
        by done.
      split_and!; [done| |].
      * intros m Hm%errorText_Some. by eapply fullName_entry_cases.
      * intros m Hm%errorText_Some. case_bool_decide; [done|].
        by injection Hm as <-.
  - intros c [He|[d He]]%second_errors_inv v; subst v; cbn; rewrite He.
    + rewrite !lookup_empty. cbn.
      by destruct (_ || _), (_ || _), (_ || _).
    + rewrite second_lookup_other, second_lookup_fullName,
        second_lookup_size by done.
      split_and!.
      * by destruct (_ || _).
      * intros m [_ Hm]%gated_Some. by eapply fullName_entry_cases.
      * intros m [_ Hm]%gated_Some. case_bool_decide; [done|].
        by injection Hm as <-.
Qed.

Lemma X11_witness :
  ∃ c, First.run enter_Al_M First.mount = Some c
     ∧ toppingsError (First.render (First.cells c)) = None
     ∧ (∀ m, fullNameError (First.render (First.cells c)) = Some m ->
             m ∈ [ str "Full name is required";
                   str "Full name must be at least 3 characters";
                   str "Full name must be at most 20 characters" ])
     ∧ (∀ m, sizeError (First.render (First.cells c)) = Some m ->
             m = str "Size must be S or M or L").
Proof.
  eexists. split; [by vm_compute|].
  refine (proj1 X11_rendered_error_texts _ _).
  apply (first_run_reachable enter_Al_M First.mount);
    [apply First.reachable_mount|by vm_compute].
Defined.

(** ** A whole order *)

Lemma first_step_Submit c :
  First.isSubmitDisabled (First.cells c) = false ->
  First.isSubmitting (First.cells c) = false ->
  ∃ c1, First.step Submit c = Some c1
      ∧ First.cells c1 = First.cells (First.setIsSubmitting true c)
      ∧ First.pending c1
        = First.pending c ++ [SubmitAwait (First.formData (First.cells c))]
      ∧ First.console c1 = First.console c.
Proof.
  intros Hd Hs. eexists. split.
  { cbn [First.step]. cbn. by rewrite Hd, Hs. }
  rewrite first_commit_cells, first_commit_pending, first_commit_console.
  cbn. by rewrite Nat.eqb_refl, app_nil_r.
Qed.

Lemma first_step_Settle_success c d rest :
  First.pending c = SubmitAwait d :: rest ->
  First.validateForm d = ∅ ->
  ∃ c2, First.step (Settle true) c = Some c2
      ∧ First.cells c2
        = First.cells (First.handleSubmit_resumed d true
                         (First.setPending rest c))
      ∧ First.pending c2 = rest ++ [ValidationEffect (mkFormData [] [] [])]
      ∧ First.console c2 = First.console c ++ [LogSubmitted d].
Proof.
  intros Hq Hd. eexists. split.
  { cbn [First.step]. rewrite Hq. reflexivity. }
  rewrite first_commit_cells, first_commit_pending, first_commit_console.
  rewrite first_resumed_console, bool_decide_eq_true_2 by done.
  split_and!; [done| |done].
  unfold First.handleSubmit_resumed. cbv zeta.
  rewrite keys_length_eqb, bool_decide_eq_true_2 by done.
  cbn. by rewrite eqb_succ.
Qed.

Lemma first_step_Settle_validation c d rest random :
  First.pending c = ValidationEffect d :: rest ->
  ∃ c3, First.step (Settle random) c = Some c3
      ∧ First.cells c3
        = First.cells (First.validate_resumed d (First.setPending rest c))
      ∧ First.pending c3 = rest
      ∧ First.console c3 = First.console c.
Proof.
  intros Hq. eexists. split.
  { cbn [First.step]. rewrite Hq. reflexivity. }
  rewrite first_commit_cells, first_commit_pending, first_commit_console.
  unfold First.validate_resumed. cbn. by rewrite Nat.eqb_refl, app_nil_r.
Qed.

Lemma second_step_Submit c :
  Second.isSubmitDisabled (Second.cells c) = false ->
  Second.isSubmitting (Second.cells c) = false ->
  ∃ c1, Second.step Submit c = Some c1
      ∧ Second.cells c1
        = Second.cells (Second.setHasAttemptedSubmit true
                          (Second.setIsSubmitting true c))
      ∧ Second.pending c1
        = Second.pending c ++ [SubmitAwait (Second.formData (Second.cells c))]
      ∧ Second.console c1 = Second.console c.
Proof.
  intros Hd Hs. eexists. split.
  { cbn [Second.step]. cbn. by rewrite Hd, Hs. }
  rewrite second_commit_cells, second_commit_pending, second_commit_console.
  cbn. by rewrite Nat.eqb_refl, app_nil_r.
Qed.

Lemma second_step_Settle_success c d rest random :
  Second.pending c = SubmitAwait d :: rest ->
  Second.validateForm d = ∅ ->
  ∃ c2, Second.step (Settle random) c = Some c2
      ∧ Second.cells c2
        = Second.cells (Second.handleSubmit_resumed d
                          (Second.setPending rest c))
      ∧ Second.pending c2 = rest ++ [ValidationEffect (mkFormData [] [] [])]
      ∧ Second.console c2 = Second.console c ++ [LogSubmitted d].
Proof.
  intros Hq Hd. eexists. split.
  { cbn [Second.step]. rewrite Hq. reflexivity. }
  rewrite second_commit_cells, second_commit_pending, second_commit_console.
  rewrite second_resumed_console, bool_decide_eq_true_2 by done.
  split_and!; [done| |done].
  unfold Second.handleSubmit_resumed. cbv zeta.
  rewrite keys_length_eqb, bool_decide_eq_true_2 by done.
  cbn. by rewrite eqb_succ.
Qed.

Lemma second_step_Settle_validation c d rest random :
  Second.pending c = ValidationEffect d :: rest ->
  ∃ c3, Second.step (Settle random) c = Some c3
      ∧ Second.cells c3
        = Second.cells (Second.validate_resumed d (Second.setPending rest c))
      ∧ Second.pending c3 = rest
      ∧ Second.console c3 = Second.console c.
Proof.
  intros Hq. eexists. split.
  { cbn [Second.step]. rewrite Hq. reflexivity. }
  rewrite second_commit_cells, second_commit_pending, second_commit_console.
  unfold Second.validate_resumed. cbn. by rewrite Nat.eqb_refl, app_nil_r.
Qed.

Lemma first_validate_resumed_cells d c :
  let s := First.cells c in
  First.cells (First.validate_resumed d c)
  = First.mkState (First.formData s) (First.validateForm d)
      (First.orderSuccess s) (First.orderMessage s) (First.orderFailure s)
      (invalid First.validateForm d) (First.isSubmitting s).
Proof. done. Qed.

Lemma second_validate_resumed_cells d c :
  let s := Second.cells c in
  Second.cells (Second.validate_resumed d c)
  = Second.mkState (Second.formData s) (Second.validateForm d)
      (Second.orderSuccess s) (Second.orderMessage s) (Second.orderFailure s)
      (invalid Second.validateForm d) (Second.isSubmitting s)
      (Second.touched s) (Second.hasAttemptedSubmit s).
Proof. done. Qed.

(** X12.  From a reachable state with nothing parked and a valid form,
    submitting, the accepted outcome and the validation of the emptied form
    can happen in this order, and they leave: an empty form, nothing
    parked, the success banner, a disabled submit control, and one more
    console line, the submitted form.  The first revision then shows
    "Full name is required" under the empty name; the second, having
    cleared its flags, shows no error text. *)
Theorem X12_accepted_order (random : bool) :
  (∀ c : First.Component,
     First.reachable c -> First.pending c = [] ->
     First.validateForm (First.formData (First.cells c)) = ∅ ->
     ∃ c', First.run [Submit; Settle true; Settle random] c = Some c'
         ∧ First.formData (First.cells c') = mkFormData [] [] []
         ∧ First.pending c' = []
         ∧ is_Some (successBanner (First.render (First.cells c')))
         ∧ submitDisabled (First.render (First.cells c')) = true
         ∧ First.console c'
           = First.console c ++ [LogSubmitted (First.formData (First.cells c))]
         ∧ fullNameError (First.render (First.cells c'))
           = Some (str "Full name is required"))
  ∧ (∀ c : Second.Component,
       Second.reachable c -> Second.pending c = [] ->
       Second.validateForm (Second.formData (Second.cells c)) = ∅ ->
       ∃ c', Second.run [Submit; Settle true; Settle random] c = Some c'
           ∧ Second.formData (Second.cells c') = mkFormData [] [] []
           ∧ Second.pending c' = []
           ∧ is_Some (successBanner (Second.render (Second.cells c')))
           ∧ submitDisabled (Second.render (Second.cells c')) = true
           ∧ Second.console c'
             = Second.console c
               ++ [LogSubmitted (Second.formData (Second.cells c))]
           ∧ fullNameError (Second.render (Second.cells c')) = None
           ∧ sizeError (Second.render (Second.cells c')) = None).
Proof.
  split.
  - intros c Hr Hq Hv.
    destruct (first_quiescent c Hr Hq) as [_ Hdis].
    rewrite invalid_false in Hdis by done.
    apply first_reachable_inv in Hr as (_ & _ & H3 & _).
    rewrite Hq in H3. cbn in H3.
    destruct (First.isSubmitting (First.cells c)) eqn:Hs; [done|].
    destruct (first_step_Submit c Hdis Hs) as (c1 & S1 & C1 & P1 & L1).
    rewrite Hq in P1. cbn in P1.
    destruct (first_step_Settle_success c1 _ [] P1 Hv)
      as (c2 & S2 & C2 & P2 & L2).
    cbn in P2.
    destruct (first_step_Settle_validation c2 _ [] random P2)
      as (c3 & S3 & C3 & P3 & L3).
    exists c3. split; [cbn [First.run]; by rewrite S1, S2, S3|].
    destruct (resumed_success _ Hv) as (w & _ & H1 & _).
    destruct (H1 (First.setPending [] c1)) as (Hfd & Hsucc & _).
    rewrite <- C2 in Hfd, Hsucc.
    rewrite C3, first_validate_resumed_cells. cbn.
    rewrite Hfd, Hsucc, L3, L2, L1.
    split_and!; try done; by vm_compute.
  - intros c Hr Hq Hv.
    destruct (second_quiescent c Hr Hq) as [_ Hdis].
    rewrite invalid_false in Hdis by done.
    apply second_reachable_inv in Hr as (_ & _ & H3 & _).
    rewrite Hq in H3. cbn in H3.
    destruct (Second.isSubmitting (Second.cells c)) eqn:Hs; [done|].
    destruct (second_step_Submit c Hdis Hs) as (c1 & S1 & C1 & P1 & L1).
    rewrite Hq in P1. cbn in P1.
    destruct (second_step_Settle_success c1 _ [] true P1 Hv)
      as (c2 & S2 & C2 & P2 & L2).
    cbn in P2.
    destruct (second_step_Settle_validation c2 _ [] random P2)
      as (c3 & S3 & C3 & P3 & L3).
    exists c3. split; [cbn [Second.run]; by rewrite S1, S2, S3|].
    assert (Hv1 : First.validateForm (Second.formData (Second.cells c)) = ∅)
      by by apply validateForm_empty_agree.
    destruct (resumed_success _ Hv1) as (w & _ & _ & H2).
    destruct (H2 (Second.setPending [] c1))
      as (Hfd & Htouched & Hatt & Hsucc & _).
    rewrite <- C2 in Hfd, Htouched, Hatt, Hsucc.
    rewrite C3, second_validate_resumed_cells. cbn.
    rewrite Hfd, Htouched, Hatt, Hsucc, L3, L2, L1.
    split_and!; try done; by vm_compute.
Qed.

Lemma first_after_reachable es :
  is_Some (First.run es First.mount) -> First.reachable (first_after es).
Proof.
  intros [c Hc]. unfold first_after. rewrite Hc.
  by apply (first_run_reachable es First.mount);
    [apply First.reachable_mount|].
Qed.

Lemma second_after_reachable es :
  is_Some (Second.run es Second.mount) -> Second.reachable (second_after es).
Proof.
  intros [c Hc]. unfold second_after. rewrite Hc.
  by apply (second_run_reachable es Second.mount);
    [apply Second.reachable_mount|].
Qed.

Lemma X12_witness :
  let c := first_after enter_Alice_S in
  First.pending c = []
  ∧ First.validateForm (First.formData (First.cells c)) = ∅
  ∧ ∃ c', First.run [Submit; Settle true; Settle true] c = Some c'
        ∧ First.formData (First.cells c') = mkFormData [] [] []
        ∧ First.pending c' = []
        ∧ is_Some (successBanner (First.render (First.cells c')))
        ∧ submitDisabled (First.render (First.cells c')) = true
        ∧ First.console c'
          = First.console c ++ [LogSubmitted (First.formData (First.cells c))]
        ∧ fullNameError (First.render (First.cells c'))
          = Some (str "Full name is required").
Proof.
  cbv zeta.
  assert (Hr : First.reachable (first_after enter_Alice_S))
    by (apply first_after_reachable; vm_compute; by eexists).
  assert (Hq : First.pending (first_after enter_Alice_S) = [])
    by (by vm_compute).
  assert (Hv : First.validateForm
                 (First.formData (First.cells (first_after enter_Alice_S)))
               = ∅) by (by vm_compute).
  split; [exact Hq|]. split; [exact Hv|].
  exact (proj1 (X12_accepted_order true) _ Hr Hq Hv).
Defined.

(** ** Edits *)

Lemma first_commit_timer_same before after :
  First.orderSuccess (First.cells before) = First.orderSuccess (First.cells after) ->
  First.orderFailure (First.cells before) = First.orderFailure (First.cells after) ->
  First.timer (First.commit before after) = First.timer after.
Proof.
  intros Hs Hf.
  unfold First.commit, First.useEffect_banner, First.useEffect_validate.
  cbv zeta. destruct (_ =? _); cbn; (rewrite bool_decide_eq_true_2; done).
Qed.

Lemma second_commit_timer_same before after :
  Second.orderSuccess (Second.cells before)
  = Second.orderSuccess (Second.cells after) ->
  Second.orderFailure (Second.cells before)
  = Second.orderFailure (Second.cells after) ->
  Second.timer (Second.commit before after) = Second.timer after.
Proof.
  intros Hs Hf.
  unfold Second.commit, Second.useEffect_banner, Second.useEffect_validate.
  cbv zeta. destruct (_ =? _); cbn; (rewrite bool_decide_eq_true_2; done).
Qed.

(** X13.  An edit (typing, choosing a size, leaving the name input,
    toggling a topping) changes neither the error mapping, nor the disabled
    and in-flight flags, nor the banners, the message and the timer: the
    errors and the submit control only follow when the validation it parks
    resumes. *)
Theorem X13_edits_leave_errors_and_banners (e : Event) :
  is_edit e = true ->
  (∀ c c' : First.Component,
     First.step e c = Some c' ->
     let s := First.cells c in
     let s' := First.cells c' in
     First.errors s' = First.errors s
     ∧ First.isSubmitDisabled s' = First.isSubmitDisabled s
     ∧ First.isSubmitting s' = First.isSubmitting s
     ∧ First.orderSuccess s' = First.orderSuccess s
     ∧ First.orderFailure s' = First.orderFailure s
     ∧ First.orderMessage s' = First.orderMessage s
     ∧ First.timer c' = First.timer c)
  ∧ (∀ c c' : Second.Component,
       Second.step e c = Some c' ->
       let s := Second.cells c in
       let s' := Second.cells c' in
       Second.errors s' = Second.errors s
       ∧ Second.isSubmitDisabled s' = Second.isSubmitDisabled s
       ∧ Second.isSubmitting s' = Second.isSubmitting s
       ∧ Second.orderSuccess s' = Second.orderSuccess s
       ∧ Second.orderFailure s' = Second.orderFailure s
       ∧ Second.orderMessage s' = Second.orderMessage s
       ∧ Second.hasAttemptedSubmit s' = Second.hasAttemptedSubmit s
       ∧ Second.timer c' = Second.timer c).
Proof.
  intros He. split.
  - intros c c' Hstep s s'. subst s s'.
    destruct e as [id value| |t| |random|]; try done;
      cbn [First.step] in Hstep.
    + injection Hstep as <-.
      rewrite first_commit_cells, first_commit_timer_same by done.
      by split_and!.
    + injection Hstep as <-. by split_and!.
    + case_bool_decide; [|done]. injection Hstep as <-.
      rewrite first_commit_cells.
      rewrite first_commit_timer_same;
        unfold First.handleToppingChange; cbv zeta;
        destruct (JS.includes _ _); first [done|by split_and!].
  - intros c c' Hstep s s'. subst s s'.
    destruct e as [id value| |t| |random|]; try done;
      cbn [Second.step] in Hstep.
    + injection Hstep as <-.
      rewrite second_commit_cells, second_commit_timer_same by done.
      by split_and!.
    + injection Hstep as <-.
      rewrite second_commit_cells, second_commit_timer_same by done.
      by split_and!.
    + case_bool_decide; [|done]. injection Hstep as <-.
      rewrite second_commit_cells.
      rewrite second_commit_timer_same;
        unfold Second.handleToppingChange; cbv zeta;
        destruct (JS.includes _ _); first [done|by split_and!].
Qed.

Lemma X13_witness :
  let c := First.mount in
  let c' := first_after [Change id_fullName (str "Al")] in
  is_edit (Change id_fullName (str "Al")) = true
  ∧ First.step (Change id_fullName (str "Al")) c = Some c'
  ∧ First.errors (First.cells c') = First.errors (First.cells c)
  ∧ First.isSubmitDisabled (First.cells c')
    = First.isSubmitDisabled (First.cells c)
  ∧ First.isSubmitting (First.cells c') = First.isSubmitting (First.cells c)
  ∧ First.orderSuccess (First.cells c') = First.orderSuccess (First.cells c)
  ∧ First.orderFailure (First.cells c') = First.orderFailure (First.cells c)
  ∧ First.orderMessage (First.cells c') = First.orderMessage (First.cells c)
  ∧ First.timer c' = First.timer c.
Proof.
  cbv zeta.
  assert (Hstep : First.step (Change id_fullName (str "Al")) First.mount
                  = Some (first_after [Change id_fullName (str "Al")]))
    by (by vm_compute).
  split; [reflexivity|]. split; [exact Hstep|].
  exact (proj1 (X13_edits_leave_errors_and_banners
                  (Change id_fullName (str "Al")) eq_refl) _ _ Hstep).
Defined.

Lemma first_step_Change c id value :
  ∃ c1, First.step (Change id value) c = Some c1
      ∧ First.cells c1 = First.cells (First.handleChange id value c)
      ∧ First.pending c1
        = First.pending c
          ++ [ValidationEffect (spread (First.formData (First.cells c)) id value)].
Proof.
  eexists. split; [reflexivity|].
  rewrite first_commit_cells, first_commit_pending.
  unfold First.handleChange. cbn. by rewrite eqb_succ.
Qed.

Lemma second_step_Change c id value :
  ∃ c1, Second.step (Change id value) c = Some c1
      ∧ Second.cells c1 = Second.cells (Second.handleChange id value c)
      ∧ Second.pending c1
        = Second.pending c
          ++ [ValidationEffect (spread (Second.formData (Second.cells c)) id value)].
Proof.
  eexists. split; [reflexivity|].
  rewrite second_commit_cells, second_commit_pending.
  unfold Second.handleChange. cbn. by rewrite eqb_succ.
Qed.

(** X14.  From a reachable state with nothing parked, a change of the name
    or the size followed by one resumption leaves nothing parked: the form
    holds the new value in that field and the old values in the others, the
    error mapping is the one of the new form, and the submit control is
    enabled exactly when the new form is valid. *)
Theorem X14_change_then_validation (id : InputId) (value : jsstring)
    (random : bool) :
  (∀ c : First.Component,
     First.reachable c -> First.pending c = [] ->
     let d := spread (First.formData (First.cells c)) id value in
     ∃ c', First.run [Change id value; Settle random] c = Some c'
         ∧ First.pending c' = []
         ∧ First.formData (First.cells c') = d
         ∧ First.errors (First.cells c') = First.validateForm d
         ∧ (submitDisabled (First.render (First.cells c')) = false
            ↔ 3 <= length (JS.trim (fullName d)) <= 20
              ∧ size d ∈ [str "S"; str "M"; str "L"]))
  ∧ (∀ c : Second.Component,
       Second.reachable c -> Second.pending c = [] ->
       let d := spread (Second.formData (Second.cells c)) id value in
       ∃ c', Second.run [Change id value; Settle random] c = Some c'
           ∧ Second.pending c' = []
           ∧ Second.formData (Second.cells c') = d
           ∧ Second.errors (Second.cells c') = Second.validateForm d
           ∧ (submitDisabled (Second.render (Second.cells c')) = false
              ↔ 3 <= length (JS.trim (fullName d)) <= 20
                ∧ size d ∈ [str "S"; str "M"; str "L"])).
Proof.
  split.
  - intros c Hr Hq d. subst d.
    apply first_reachable_inv in Hr as (_ & _ & H3 & _).
    rewrite Hq in H3. cbn in H3.
    destruct (First.isSubmitting (First.cells c)) eqn:Hs; [done|].
    destruct (first_step_Change c id value) as (c1 & S1 & C1 & P1).
    rewrite Hq in P1. cbn in P1.
    destruct (first_step_Settle_validation c1 _ [] random P1)
      as (c2 & S2 & C2 & P2 & _).
    exists c2. split; [cbn [First.run]; by rewrite S1, S2|].
    rewrite C2, first_validate_resumed_cells. cbn. rewrite C1. cbn.
    rewrite Hs, orb_false_r, invalid_false_iff.
    split_and!; try done. apply first_validateForm_empty_iff.
  - intros c Hr Hq d. subst d.
    apply second_reachable_inv in Hr as (_ & _ & H3 & _).
    rewrite Hq in H3. cbn in H3.
    destruct (Second.isSubmitting (Second.cells c)) eqn:Hs; [done|].
    destruct (second_step_Change c id value) as (c1 & S1 & C1 & P1).
    rewrite Hq in P1. cbn in P1.
    destruct (second_step_Settle_validation c1 _ [] random P1)
      as (c2 & S2 & C2 & P2 & _).
    exists c2. split; [cbn [Second.run]; by rewrite S1, S2|].
    rewrite C2, second_validate_resumed_cells. cbn. rewrite C1. cbn.
    rewrite Hs, orb_false_r, invalid_false_iff.
    split_and!; try done. apply second_validateForm_empty_iff.
Qed.

Lemma X14_witness :
  let c := first_after enter_Al_M in
  let d := spread (First.formData (First.cells c)) id_fullName (str "Alice") in
  First.pending c = []
  ∧ ∃ c', First.run [Change id_fullName (str "Alice"); Settle true] c = Some c'
        ∧ First.pending c' = []
        ∧ First.formData (First.cells c') = d
        ∧ First.errors (First.cells c') = First.validateForm d
        ∧ (submitDisabled (First.render (First.cells c')) = false
           ↔ 3 <= length (JS.trim (fullName d)) <= 20
             ∧ size d ∈ [str "S"; str "M"; str "L"]).
Proof.
  cbv zeta.
  assert (Hr : First.reachable (first_after enter_Al_M))
    by (apply first_after_reachable; vm_compute; by eexists).
  assert (Hq : First.pending (first_after enter_Al_M) = []) by (by vm_compute).
  split; [exact Hq|].
  exact (proj1 (X14_change_then_validation id_fullName (str "Alice") true)
           _ Hr Hq).
Defined.

(** X15.  In the second revision, leaving the name input or changing the
    name shows the error text of the name whenever the error mapping has a
    non-empty entry for it, and changing the size does the same for the
    size; toggling a topping marks the key [toppings] while the form reads
    the key [topping], so it leaves the error text of the toppings as it
    was. *)
Theorem X15_touching_reveals_the_error_text :
  ∀ c c' : Second.Component,
    (Second.step Blur c = Some c' ->
     fullNameError (Second.render (Second.cells c'))
     = errorText (Second.errors (Second.cells c) !! "fullName"))
    ∧ (∀ value, Second.step (Change id_fullName value) c = Some c' ->
         fullNameError (Second.render (Second.cells c'))
         = errorText (Second.errors (Second.cells c) !! "fullName"))
    ∧ (∀ value, Second.step (Change id_size value) c = Some c' ->
         sizeError (Second.render (Second.cells c'))
         = errorText (Second.errors (Second.cells c) !! "size"))
    ∧ (∀ t, Second.step (ToppingChange t) c = Some c' ->
         toppingsError (Second.render (Second.cells c'))
         = toppingsError (Second.render (Second.cells c))).
Proof.
  intros c c'. split_and!.
  - cbn [Second.step]. intros [= <-]. rewrite second_commit_cells.
    cbn. unfold Second.flag. rewrite lookup_insert_eq. cbn.
    by rewrite orb_true_r.
  - intros value. cbn [Second.step]. intros [= <-].
    rewrite second_commit_cells.
    cbn. unfold Second.flag. rewrite lookup_insert_eq. cbn.
    by rewrite orb_true_r.
  - intros value. cbn [Second.step]. intros [= <-].
    rewrite second_commit_cells.
    cbn. unfold Second.flag. rewrite lookup_insert_eq. cbn.
    by rewrite orb_true_r.
  - intros t. cbn [Second.step]. case_bool_decide; [|done]. intros [= <-].
    rewrite second_commit_cells. unfold Second.handleToppingChange.
    cbv zeta. destruct (JS.includes _ _); cbn; unfold Second.flag;
      by rewrite lookup_insert_ne.
Qed.

Lemma X15_witness :
  let c := second_after [Settle true] in
  let c' := second_after [Settle true; Blur] in
  Second.step Blur c = Some c'
  ∧ fullNameError (Second.render (Second.cells c))
    = None
  ∧ fullNameError (Second.render (Second.cells c'))
    = errorText (Second.errors (Second.cells c) !! "fullName")
  ∧ errorText (Second.errors (Second.cells c) !! "fullName")
    = Some (str "Full name is required").
Proof.
  cbv zeta.
  assert (Hstep : Second.step Blur (second_after [Settle true])
                  = Some (second_after [Settle true; Blur]))
    by (by vm_compute).
  split; [exact Hstep|]. split; [by vm_compute|].
  split; [|by vm_compute].
  exact (proj1 (X15_touching_reveals_the_error_text _ _) Hstep).
Defined.

Lemma first_step_Settle_failure c d rest :
  First.pending c = SubmitAwait d :: rest ->
  First.validateForm d = ∅ ->
  ∃ c2, First.step (Settle false) c = Some c2
      ∧ First.cells c2
        = First.cells (First.handleSubmit_resumed d false
                         (First.setPending rest c))
      ∧ First.pending c2 = rest
      ∧ First.console c2 = First.console c ++ [LogSubmitted d].
Proof.
  intros Hq Hd. eexists. split.
  { cbn [First.step]. rewrite Hq. reflexivity. }
  rewrite first_commit_cells, first_commit_pending, first_commit_console.
  rewrite first_resumed_console, bool_decide_eq_true_2 by done.
  split_and!; [done| |done].
  rewrite first_resumed_failure by done. cbn.
  by rewrite Nat.eqb_refl, app_nil_r.
Qed.

(** X16.  In the first revision a rejected order can be sent again as it
    is: from a reachable state with nothing parked and a valid form,
    submitting and the rejected outcome leave the same form, nothing
    parked, the failure banner and no success banner, the same (empty)
    error mapping, and the submit control enabled. *)
Theorem X16_rejected_order_can_be_resubmitted (c : First.Component) :
  First.reachable c -> First.pending c = [] ->
  First.validateForm (First.formData (First.cells c)) = ∅ ->
  ∃ c', First.run [Submit; Settle false] c = Some c'
      ∧ First.formData (First.cells c') = First.formData (First.cells c)
      ∧ First.pending c' = []
      ∧ First.errors (First.cells c') = ∅
      ∧ failureBanner (First.render (First.cells c'))
        = Some (str "Something went wrong")
      ∧ successBanner (First.render (First.cells c')) = None
      ∧ submitDisabled (First.render (First.cells c')) = false
      ∧ First.console c'
        = First.console c ++ [LogSubmitted (First.formData (First.cells c))].
Proof.
  intros Hr Hq Hv.
  destruct (first_quiescent c Hr Hq) as [_ Hdis].
  rewrite invalid_false in Hdis by done.
  apply first_reachable_inv in Hr as (_ & _ & H3 & _).
  rewrite Hq in H3. cbn in H3.
  destruct (First.isSubmitting (First.cells c)) eqn:Hs; [done|].
  destruct (first_step_Submit c Hdis Hs) as (c1 & S1 & C1 & P1 & L1).
  rewrite Hq in P1. cbn in P1.
  destruct (first_step_Settle_failure c1 _ [] P1 Hv)
    as (c2 & S2 & C2 & P2 & L2).
  exists c2. split; [cbn [First.run]; by rewrite S1, S2|].
  rewrite C2, first_resumed_failure by done. cbn. rewrite C1. cbn.
  rewrite Hdis, L2, L1. by split_and!.
Qed.

Lemma X16_witness :
  let c := first_after enter_Alice_S in
  First.pending c = []
  ∧ First.validateForm (First.formData (First.cells c)) = ∅
  ∧ ∃ c', First.run [Submit; Settle false] c = Some c'
        ∧ First.formData (First.cells c') = First.formData (First.cells c)
        ∧ First.pending c' = []
        ∧ First.errors (First.cells c') = ∅
        ∧ failureBanner (First.render (First.cells c'))
          = Some (str "Something went wrong")
        ∧ successBanner (First.render (First.cells c')) = None
        ∧ submitDisabled (First.render (First.cells c')) = false
        ∧ First.console c'
          = First.console c ++ [LogSubmitted (First.formData (First.cells c))].
Proof.
  cbv zeta.
  assert (Hr : First.reachable (first_after enter_Alice_S))
    by (apply first_after_reachable; vm_compute; by eexists).
  assert (Hq : First.pending (first_after enter_Alice_S) = [])
    by (by vm_compute).
  assert (Hv : First.validateForm
                 (First.formData (First.cells (first_after enter_Alice_S)))
               = ∅) by (by vm_compute).
  split; [exact Hq|]. split; [exact Hv|].
  exact (X16_rejected_order_can_be_resubmitted _ Hr Hq Hv).
Defined.
